(** * SalesForecasting: the preprocessing and forecasting pipeline

    A shallow embedding of [preprocessData], [trainAndPredict] and
    [visualizeResults] of src/SalesForecasting.js (the second copy of the
    component differs only in logging and chart styling), together with
    the JavaScript built-ins these functions call: [parseFloat], [Date],
    [Set], [Object.fromEntries], [Object.keys], property lookup and array
    indexing.

    Numbers that hold quantities and predictions are IEEE-754 binary64
    values ([spec_float]); months, indices and time values are integers. *)

From Stdlib Require Import ZArith NArith Arith Lia List Bool Ascii String.
From Stdlib Require Import Permutation Sorted.
From Stdlib Require Import Floats.SpecFloat.
Import ListNotations.

Local Open Scope string_scope.
Local Open Scope list_scope.

(* ===================================================================== *)
(** * JavaScript built-ins *)
(* ===================================================================== *)

Module JS.

(** ** Numbers *)

Definition prec : Z := 53.
Definition emax : Z := 1024.

Definition Number := spec_float.

Definition NaN : Number := S754_nan.
Definition pos_zero : Number := S754_zero false.

(** The Number of a non-negative integer literal. *)
Definition of_N (n : N) : Number :=
  binary_normalize prec emax (Z.of_N n) 0%Z false.

(** ToBoolean on a Number: NaN, +0 and -0 are falsy. *)
Definition ToBoolean (x : Number) : bool :=
  match x with
  | S754_nan | S754_zero _ => false
  | _ => true
  end.

(** [x || y] on Numbers. *)
Definition or_else (x y : Number) : Number :=
  if ToBoolean x then x else y.

(** ** Characters *)

Definition code (c : ascii) : N := N_of_ascii c.

Definition digit_of (c : ascii) : option N :=
  let n := code c in
  if ((48 <=? n) && (n <=? 57))%N then Some (n - 48)%N else None.

(** Strings are sequences of bytes (UTF-8).  [skip_white_space] drops one
    leading WhiteSpace or LineTerminator code point, if there is one. *)
Definition skip_white_space (s : string) : option string :=
  match s with
  | String c r =>
      let n := code c in
      if ((n =? 9) || (n =? 10) || (n =? 11) || (n =? 12) || (n =? 13)
          || (n =? 32))%N then Some r
      else
        match r with
        | String c1 r1 =>
            let n1 := code c1 in
            if ((n =? 194) && (n1 =? 160))%N then Some r1 (* U+00A0 *)
            else
              match r1 with
              | String c2 r2 =>
                  let n2 := code c2 in
                  if ((n =? 225) && (n1 =? 154) && (n2 =? 128))%N
                  then Some r2 (* U+1680 *)
                  else if ((n =? 226) && (n1 =? 128)
                           && ((128 <=? n2) && (n2 <=? 138)
                               || (n2 =? 168) || (n2 =? 169)
                               || (n2 =? 175)))%N
                  then Some r2 (* U+2000..U+200A, U+2028, U+2029, U+202F *)
                  else if ((n =? 226) && (n1 =? 129) && (n2 =? 159))%N
                  then Some r2 (* U+205F *)
                  else if ((n =? 227) && (n1 =? 128) && (n2 =? 128))%N
                  then Some r2 (* U+3000 *)
                  else if ((n =? 239) && (n1 =? 187) && (n2 =? 191))%N
                  then Some r2 (* U+FEFF *)
                  else None
              | EmptyString => None
              end
        | EmptyString => None
        end
  | EmptyString => None
  end.

(** TrimString(s, start).  The fuel is the length of the string: each
    step consumes at least one byte. *)
Fixpoint trim_start_fuel (fuel : nat) (s : string) : string :=
  match fuel with
  | O => s
  | S fuel' =>
      match skip_white_space s with
      | Some r => trim_start_fuel fuel' r
      | None => s
      end
  end.

Definition trim_start (s : string) : string :=
  trim_start_fuel (String.length s) s.

(** ** parseFloat *)

(** The longest run of DecimalDigits at the head of [s], accumulated on
    [acc]; returns the value, the number of digits read and the rest. *)
Fixpoint DecimalDigits (s : string) (acc : N) (cnt : nat)
  : N * nat * string :=
  match s with
  | String c r =>
      match digit_of c with
      | Some d => DecimalDigits r (acc * 10 + d)%N (S cnt)
      | None => (acc, cnt, s)
      end
  | EmptyString => (acc, cnt, s)
  end.

(** An ExponentPart at the head of [s]: [e] or [E], an optional sign and
    at least one digit.  [None] when the head is no complete
    ExponentPart (the literal then ends before it). *)
Definition ExponentPart (s : string) : option Z :=
  match s with
  | String c r =>
      if ((code c =? 101) || (code c =? 69))%N then
        let '(neg, r') :=
          match r with
          | String "+"%char r' => (false, r')
          | String "-"%char r' => (true, r')
          | _ => (false, r)
          end in
        let '(v, cnt, _) := DecimalDigits r' 0%N 0 in
        match cnt with
        | O => None
        | S _ => Some (if neg then Z.opp (Z.of_N v) else Z.of_N v)
        end
      else None
  | EmptyString => None
  end.

(** The mathematical value of a StrDecimalLiteral, before rounding. *)
Inductive StrDecimalLiteral : Type :=
| LitInfinity (neg : bool)
| LitDecimal (neg : bool) (mant : N) (exp10 : Z).

Definition StrUnsignedDecimalLiteral (neg : bool) (s : string)
  : option StrDecimalLiteral :=
  if String.prefix "Infinity" s then Some (LitInfinity neg)
  else
    let '(ip, icnt, r) := DecimalDigits s 0%N 0 in
    let '(m, fcnt, r') :=
      match r with
      | String "."%char rf =>
          let '(m, fcnt, r') := DecimalDigits rf ip 0 in
          match icnt, fcnt with
          | O, O => (ip, 0, r)
          | _, _ => (m, fcnt, r')
          end
      | _ => (ip, 0, r)
      end in
    match icnt, fcnt with
    | O, O => None
    | _, _ =>
        let e := match ExponentPart r' with Some e => e | None => 0%Z end in
        Some (LitDecimal neg m (e - Z.of_nat fcnt)%Z)
    end.

(** The longest prefix of [s] that is a StrDecimalLiteral. *)
Definition StrDecimalLiteral_prefix (s : string) : option StrDecimalLiteral :=
  match s with
  | String "+"%char r => StrUnsignedDecimalLiteral false r
  | String "-"%char r => StrUnsignedDecimalLiteral true r
  | _ => StrUnsignedDecimalLiteral false s
  end.

(** Round [mant * 10 ^ exp10] to the nearest binary64, ties to even. *)
Definition round_decimal (neg : bool) (mant : N) (exp10 : Z) : Number :=
  match mant with
  | N0 => S754_zero neg
  | Npos p =>
      match exp10 with
      | Zneg k =>
          let '(q, e, l) :=
            SFdiv_core_binary prec emax (Zpos p) 0%Z (Z.pow_pos 10 k) 0%Z in
          binary_round_aux prec emax neg q e l
      | _ => binary_round prec emax neg (Z.to_pos (Zpos p * 10 ^ exp10)%Z) 0%Z
      end
  end.

Definition parseFloat (s : string) : Number :=
  match StrDecimalLiteral_prefix (trim_start s) with
  | None => NaN
  | Some (LitInfinity neg) => S754_infinity neg
  | Some (LitDecimal neg mant exp10) => round_decimal neg mant exp10
  end.

(** ** Values *)

(** The values that occur as array elements and as results of property
    lookup.  [number] holds the integral Numbers (months, indices);
    [inherited] stands for a member of [Object.prototype] (a function or
    an object), which is neither [undefined] nor [null]. *)
#[warnings="-register-all"]
Inductive Value : Type :=
| undefined
| null
| number (z : Z)
| array (elements : list Value)
| inherited.

(** [v !== undefined] and [v !== null]. *)
Definition not_undefined (v : Value) : bool :=
  match v with
  | undefined => false
  | _ => true
  end.

Definition not_null (v : Value) : bool :=
  match v with
  | null => false
  | _ => true
  end.

(** ** Arrays *)

(** [a[i]]: undefined outside the array. *)
Definition at_index (a : list Value) (i : nat) : Value := nth i a undefined.

(** [v.length] of an array. *)
Definition array_length (v : Value) : nat :=
  match v with
  | array elements => List.length elements
  | _ => 0
  end.

(** [a.map((x, i) => f x i)], the index counted from [i]. *)
Fixpoint mapi_from {A B : Type} (f : A -> nat -> B) (i : nat) (a : list A)
  : list B :=
  match a with
  | [] => []
  | x :: a' => f x i :: mapi_from f (S i) a'
  end.

Definition mapi {A B : Type} (f : A -> nat -> B) (a : list A) : list B :=
  mapi_from f 0 a.

(** [a.filter((x, i) => f x i)], the index counted from [i]. *)
Fixpoint filteri_from {A : Type} (f : A -> nat -> bool) (i : nat)
  (a : list A) : list A :=
  match a with
  | [] => []
  | x :: a' =>
      if f x i then x :: filteri_from f (S i) a' else filteri_from f (S i) a'
  end.

Definition filteri {A : Type} (f : A -> nat -> bool) (a : list A) : list A :=
  filteri_from f 0 a.

(** ** Set of strings *)

(** A Set keeps its elements in insertion order; [Set_add] leaves the set
    alone when the element is there already. *)
Definition Set_has (s : list string) (x : string) : bool :=
  existsb (String.eqb x) s.

Definition Set_add (s : list string) (x : string) : list string :=
  if Set_has s x then s else s ++ [x].

(** [[...new Set(a)]] *)
Definition Set_from (a : list string) : list string :=
  fold_left Set_add a [].

(** ** Ordinary objects *)

(** The own enumerable data properties of an object created by
    [Object.fromEntries], in order of creation; the prototype is
    [Object.prototype]. *)
Definition Object := list (string * Value).

Fixpoint own_property (o : Object) (k : string) : option Value :=
  match o with
  | [] => None
  | (k', v) :: o' => if String.eqb k k' then Some v else own_property o' k
  end.

(** CreateDataProperty: a key that exists keeps its place. *)
Fixpoint set_property (o : Object) (k : string) (v : Value) : Object :=
  match o with
  | [] => [(k, v)]
  | (k', v') :: o' =>
      if String.eqb k k' then (k', v) :: o'
      else (k', v') :: set_property o' k v
  end.

Definition Object_fromEntries (entries : list (string * Value)) : Object :=
  fold_left (fun o e => set_property o (fst e) (snd e)) entries [].

Definition Object_prototype_names : list string :=
  ["constructor"; "__defineGetter__"; "__defineSetter__"; "hasOwnProperty";
   "__lookupGetter__"; "__lookupSetter__"; "isPrototypeOf";
   "propertyIsEnumerable"; "toString"; "valueOf"; "__proto__";
   "toLocaleString"].

(** [o[k]]: the own property, else the inherited one, else undefined. *)
Definition Get (o : Object) (k : string) : Value :=
  match own_property o k with
  | Some v => v
  | None =>
      if existsb (String.eqb k) Object_prototype_names then inherited
      else undefined
  end.

(** An array index is the canonical decimal string of an integer in
    [0, 2^32 - 2]. *)
Definition array_index (k : string) : option N :=
  match k with
  | EmptyString => None
  | String c r =>
      let '(v, cnt, rest) := DecimalDigits k 0%N 0 in
      match rest with
      | EmptyString =>
          if ((code c =? 48) && negb (String.eqb r EmptyString))%N then None
          else if (v <=? 4294967294)%N then Some v
          else None
      | _ => None
      end
  end.

Definition is_array_index (k : string) : bool :=
  match array_index k with
  | Some _ => true
  | None => false
  end.

(** Insertion of a key into a list of index keys sorted by index. *)
Fixpoint insert_index (n : N) (k : string) (l : list (N * string))
  : list (N * string) :=
  match l with
  | [] => [(n, k)]
  | (n', k') :: l' =>
      if (n <=? n')%N then (n, k) :: l else (n', k') :: insert_index n k l'
  end.

Definition index_keys (ks : list string) : list (N * string) :=
  fold_right
    (fun k acc =>
       match array_index k with
       | Some n => insert_index n k acc
       | None => acc
       end) [] ks.

(** OrdinaryOwnPropertyKeys: the array indices in ascending numeric
    order, then the other string keys in order of creation. *)
Definition OwnPropertyKeys (o : Object) : list string :=
  let ks := map fst o in
  map snd (index_keys ks) ++ filter (fun k => negb (is_array_index k)) ks.

Definition Object_keys (o : Object) : list string := OwnPropertyKeys o.

(** ** Date *)

Local Open Scope Z_scope.

Definition msPerDay : Z := 86400000.

Definition Day (t : Z) : Z := t / msPerDay.

Definition DaysInYear (y : Z) : Z :=
  if negb (y mod 4 =? 0) then 365
  else if negb (y mod 100 =? 0) then 366
  else if negb (y mod 400 =? 0) then 365
  else 366.

Definition DayFromYear (y : Z) : Z :=
  365 * (y - 1970) + (y - 1969) / 4 - (y - 1901) / 100 + (y - 1601) / 400.

(** The largest [y] with [DayFromYear y <= Day t]: the estimate from the
    mean year length is off by at most one (see [YearFromTime_spec]). *)
Definition YearFromTime (t : Z) : Z :=
  let d := Day t in
  let y0 := 1970 + d * 400 / 146097 in
  if d <? DayFromYear y0 then y0 - 1
  else if DayFromYear (y0 + 1) <=? d then y0 + 1
  else y0.

Definition InLeapYear (t : Z) : Z :=
  if DaysInYear (YearFromTime t) =? 366 then 1 else 0.

Definition DayWithinYear (t : Z) : Z :=
  Day t - DayFromYear (YearFromTime t).

Definition MonthFromTime (t : Z) : Z :=
  let d := DayWithinYear t in
  let l := InLeapYear t in
  if d <? 31 then 0
  else if d <? 59 + l then 1
  else if d <? 90 + l then 2
  else if d <? 120 + l then 3
  else if d <? 151 + l then 4
  else if d <? 181 + l then 5
  else if d <? 212 + l then 6
  else if d <? 243 + l then 7
  else if d <? 273 + l then 8
  else if d <? 304 + l then 9
  else if d <? 334 + l then 10
  else 11.

(** What the host decides about dates: how a string is parsed (outside
    the interchange format the rules are implementation-defined) and the
    offset of local time.  [Date_parse s = None] stands for a NaN time
    value. *)
Record Host : Type := {
  Date_parse : string -> option Z;
  LocalTZA : Z -> Z
}.

(** A Date object: its time value, [None] for an Invalid Date. *)
Definition Date := option Z.

Definition new_Date (h : Host) (s : string) : Date := Date_parse h s.

Definition LocalTime (h : Host) (t : Z) : Z := t + LocalTZA h t.

(** [date.getMonth()] on a Date with time value [t]. *)
Definition getMonth (h : Host) (t : Z) : Z := MonthFromTime (LocalTime h t).

(** A host for running examples: it reads the date-only form
    [YYYY-MM-DD] of the interchange format, as UTC, and rejects every
    other string; local time is UTC. *)
Definition two_digits (a b : ascii) : option Z :=
  match digit_of a, digit_of b with
  | Some x, Some y => Some (Z.of_N (x * 10 + y))
  | _, _ => None
  end.

Definition days_before_month (leap : Z) (m : Z) : Z :=
  nth (Z.to_nat (m - 1))
      [0; 31; 59 + leap; 90 + leap; 120 + leap; 151 + leap; 181 + leap;
       212 + leap; 243 + leap; 273 + leap; 304 + leap; 334 + leap] 0.

Definition days_in_month (leap : Z) (m : Z) : Z :=
  nth (Z.to_nat (m - 1))
      [31; 28 + leap; 31; 30; 31; 30; 31; 31; 30; 31; 30; 31] 0.

Definition parse_date_only (s : string) : option Z :=
  match s with
  | String y1 (String y2 (String y3 (String y4 (String "-"%char
      (String m1 (String m2 (String "-"%char
        (String d1 (String d2 EmptyString))))))))) =>
      match two_digits y1 y2, two_digits y3 y4,
            two_digits m1 m2, two_digits d1 d2 with
      | Some yh, Some yl, Some m, Some d =>
          let y := yh * 100 + yl in
          let leap := if DaysInYear y =? 366 then 1 else 0 in
          if (1 <=? m) && (m <=? 12) && (1 <=? d)
             && (d <=? days_in_month leap m)
          then Some ((DayFromYear y + days_before_month leap m + d - 1)
                     * msPerDay)
          else None
      | _, _, _, _ => None
      end
  | _ => None
  end.

Definition utc_host : Host :=
  {| Date_parse := parse_date_only; LocalTZA := fun _ => 0 |}.

End JS.

(* ===================================================================== *)
(** * TensorFlow.js: tensors, training and inference *)
(* ===================================================================== *)

Module TF.

Import JS.

(** A tensor is a handle on a buffer of the backend, with its shape and
    its values. *)
Record Tensor (A : Type) : Type := {
  handle : nat;
  shape : list nat;
  values : A
}.
Arguments handle {A} _.
Arguments shape {A} _.
Arguments values {A} _.

Inductive Layer : Type :=
| dense (units : nat) (activation : option string)
    (inputShape : option (list nat)).

(** A compiled [tf.sequential()] model. *)
Record Sequential : Type := {
  layers : list Layer;
  optimizer : string;
  loss : string
}.

(** The forward pass of a trained model on a 1x2 input. *)
Definition Trained := list Value -> Number.

(** What the backend decides: the weights that training ends with.
    [None] is a training run that fails (the promise of [model.fit]
    rejects). *)
Record Backend : Type := {
  train : Sequential -> list Value -> list Number -> nat -> option Trained
}.

Inductive Call : Type :=
| call_fit (xs : list Value) (ys : list Number) (epochs : nat)
| call_predict (x : list Value).

Record Dataset : Type := { label : string; data : list Number }.

Record ChartData : Type := { labels : list string; datasets : list Dataset }.

(** The state the pipeline acts on: the handles of the live tensors among
    those the component creates (by [tf.tensor2d] and [model.predict]),
    the calls made to the model so far and the chart state of the
    component. *)
Record World : Type := {
  next_handle : nat;
  live : list nat;
  calls : list Call;
  chartData : option ChartData
}.

Definition initial : World :=
  {| next_handle := 0; live := []; calls := []; chartData := None |}.

(** A statement completes normally or throws. *)
Inductive Completion (A : Type) : Type :=
| normal (a : A)
| throw.
Arguments normal {A} _.
Arguments throw {A}.

Definition M (A : Type) : Type := World -> Completion A * World.

Definition ret {A : Type} (a : A) : M A := fun w => (normal a, w).

Definition bind {A B : Type} (c : M A) (k : A -> M B) : M B :=
  fun w =>
    match c w with
    | (normal a, w') => k a w'
    | (throw, w') => (throw, w')
    end.

Notation "x <- c ;; k" := (bind c (fun x => k))
  (at level 61, c at next level, right associativity).
Notation "c ;;; k" := (bind c (fun _ => k))
  (at level 61, right associativity).

(** [for (x of l) acc = body(acc, x)] *)
Fixpoint for_each {A S : Type} (l : list A) (body : S -> A -> M S) (acc : S)
  : M S :=
  match l with
  | [] => ret acc
  | x :: l' => acc' <- body acc x ;; for_each l' body acc'
  end.

(** [tf.tensor2d(v, shape)] allocates a buffer. *)
Definition tensor2d {A : Type} (v : A) (shape : list nat) : M (Tensor A) :=
  fun w =>
    let id := next_handle w in
    (normal {| handle := id; shape := shape; values := v |},
     {| next_handle := S id; live := live w ++ [id];
        calls := calls w; chartData := chartData w |}).

(** [t.dispose()] releases the buffer of [t]. *)
Definition dispose {A : Type} (t : Tensor A) : M unit :=
  fun w =>
    (normal tt,
     {| next_handle := next_handle w;
        live := filter (fun id => negb (Nat.eqb id (handle t))) (live w);
        calls := calls w; chartData := chartData w |}).

(** [t.dataSync()] throws on a disposed tensor. *)
Definition dataSync {A : Type} (t : Tensor A) : M A :=
  fun w =>
    if existsb (Nat.eqb (handle t)) (live w) then (normal (values t), w)
    else (throw, w).

Definition record_call (c : Call) : M unit :=
  fun w =>
    (normal tt,
     {| next_handle := next_handle w; live := live w;
        calls := calls w ++ [c]; chartData := chartData w |}).

(** [await model.fit(xs, ys, { epochs })] *)
Definition fit (b : Backend) (model : Sequential)
  (xs : Tensor (list Value)) (ys : Tensor (list Number)) (epochs : nat)
  : M Trained :=
  record_call (call_fit (values xs) (values ys) epochs) ;;;
  fun w =>
    match train b model (values xs) (values ys) epochs with
    | Some t => (normal t, w)
    | None => (throw, w)
    end.

(** [model.predict(x)] allocates the tensor of the prediction. *)
Definition predict (model : Trained) (x : Tensor (list Value))
  : M (Tensor Number) :=
  record_call (call_predict (values x)) ;;;
  tensor2d (model (values x)) [1; 1]%nat.

Definition setChartData (c : ChartData) : M unit :=
  fun w =>
    (normal tt,
     {| next_handle := next_handle w; live := live w;
        calls := calls w; chartData := Some c |}).

End TF.

(* ===================================================================== *)
(** * The component *)
(* ===================================================================== *)

Import JS TF.

Record SalesRecord : Type := {
  sales_date : string;
  product_description : string;
  quantity_sold : string
}.

Record Encoded : Type := {
  inputs : list Value;
  outputs : list Number;
  productMapping : Object
}.

Record Prediction : Type := {
  product : string;
  month : Value;          (* the field [sales_date] of a prediction *)
  predicted : Number
}.

(** [Array.from({ length: 6 }, (_, i) => `Month ${i + 1}`)] *)
Definition decimal_digit (n : nat) : string :=
  String (ascii_of_nat (48 + n)) EmptyString.

Definition month_labels : list string :=
  map (fun i => String.append "Month " (decimal_digit (i + 1))) (seq 0 6).

Section SalesForecasting.

Variable host : Host.
Variable backend : Backend.

(** The [data] prop: [None] is an absent (undefined or null) value. *)
Variable data : option (list SalesRecord).

Definition preprocessData : Encoded :=
  match data with
  | None => {| inputs := []; outputs := []; productMapping := [] |}
  | Some data =>
      if Nat.eqb (List.length data) 0
      then {| inputs := []; outputs := []; productMapping := [] |}
      else
        let salesDates :=
          map (fun row =>
                 match new_Date host (sales_date row) with
                 | Some t => number (getMonth host t + 1)
                 | None => null
                 end) data in
        let products := Set_from (map product_description data) in
        let productMapping :=
          Object_fromEntries
            (mapi (fun p i => (p, number (Z.of_nat i))) products) in
        let quantities :=
          map (fun row => or_else (parseFloat (quantity_sold row)) pos_zero)
              data in
        let inputs :=
          filter not_null
            (mapi (fun row i =>
                     if not_null (at_index salesDates i)
                        && not_undefined
                             (Get productMapping (product_description row))
                     then array [at_index salesDates i;
                                 Get productMapping (product_description row)]
                     else null) data) in
        let outputs :=
          filteri (fun q i => not_null (at_index inputs i)) quantities in
        {| inputs := inputs; outputs := outputs;
           productMapping := productMapping |}
  end.

Definition buildModel : Sequential :=
  {| layers := [dense 10 (Some "relu") (Some [2%nat]); dense 1 None None];
     optimizer := "adam";
     loss := "meanSquaredError" |}.

(** Colours and line styles of the datasets are left out. *)
Definition visualizeResults (predictions : list Prediction) : M unit :=
  let products := Set_from (map product predictions) in
  let datasets :=
    map (fun p =>
           Build_Dataset p
             (map predicted
                  (filter (fun q => String.eqb (product q) p) predictions)))
        products in
  setChartData {| labels := month_labels; datasets := datasets |}.

(** The body of the forecast loop for month [i] and one product. *)
Definition predict_one (model : Trained) (productMapping : Object)
  (i : Z) (predictions : list Prediction) (product : string)
  : M (list Prediction) :=
  x <- tensor2d [array [number i; Get productMapping product]]
                [1; 2]%nat ;;
  predictionTensor <- predict model x ;;
  predictedValue <- dataSync predictionTensor ;;
  dispose predictionTensor ;;;
  ret (predictions ++
       [{| product := product; month := number i;
           predicted := predictedValue |}]).

(** [for (let i = 1; i <= 6; i++) Object.keys(productMapping).forEach(..)] *)
Definition forecast (model : Trained) (productMapping : Object)
  : M (list Prediction) :=
  for_each (map Z.of_nat (seq 1 6))
    (fun predictions i =>
       for_each (Object_keys productMapping)
         (predict_one model productMapping i) predictions)
    [].

Definition trainAndPredict : M unit :=
  let e := preprocessData in
  if Nat.eqb (List.length (inputs e)) 0
     || Nat.eqb (List.length (outputs e)) 0
  then ret tt
  else
    xs <- tensor2d (inputs e)
           [List.length (inputs e); array_length (at_index (inputs e) 0)] ;;
    ys <- tensor2d (outputs e) [List.length (outputs e); 1%nat] ;;
    let model := buildModel in
    trained <- fit backend model xs ys 50 ;;
    predictions <- forecast trained (productMapping e) ;;
    visualizeResults predictions.

End SalesForecasting.

(* ===================================================================== *)
(** * Vocabulary of the statements *)
(* ===================================================================== *)

(** The position of the first occurrence of [x] in [l] (the length of
    [l] when there is none). *)
Fixpoint index_of (x : string) (l : list string) : nat :=
  match l with
  | [] => 0
  | y :: l' => if String.eqb x y then 0 else S (index_of x l')
  end.

(** The month of a record: defined when the date parses. *)
Definition month_of (host : Host) (row : SalesRecord) : option Z :=
  match new_Date host (sales_date row) with
  | Some t => Some (getMonth host t + 1)%Z
  | None => None
  end.

(** The target of a record. *)
Definition quantity_of (row : SalesRecord) : Number :=
  or_else (parseFloat (quantity_sold row)) pos_zero.

(** The distinct descriptions of a batch, as the encoder collects them. *)
Definition products_of (data : list SalesRecord) : list string :=
  Set_from (map product_description data).

(** The mapping of a batch: its distinct descriptions, numbered. *)
Definition mapping_of (data : list SalesRecord) : Object :=
  mapi (fun p i => (p, number (Z.of_nat i))) (products_of data).

(** The feature vector of a record within its batch, if it has one. *)
Definition feature_of (host : Host) (data : list SalesRecord)
  (row : SalesRecord) : list Value :=
  match month_of host row with
  | Some m =>
      [array [number m;
              number (Z.of_nat (index_of (product_description row)
                                         (products_of data)))]]
  | None => []
  end.

(** What one record adds to the features under the inclusion rule: the
    pair of its month and its product index when both are defined. *)
Definition encode_row (host : Host) (pm : Object) (row : SalesRecord)
  : list Value :=
  match month_of host row with
  | Some m =>
      if not_undefined (Get pm (product_description row))
      then [array [number m; Get pm (product_description row)]]
      else []
  | None => []
  end.

Definition empty_encoding : Encoded :=
  {| inputs := []; outputs := []; productMapping := [] |}.

(** The months of the forecast loop. *)
Definition forecast_months : list Z := map Z.of_nat (seq 1 6).

(** The world after one pass of the body of the forecast loop: the input
    tensor and the prediction tensor are allocated, the prediction tensor
    is disposed of. *)
Definition after_predict_one (pm : Object) (i : Z) (p : string) (w : World)
  : World :=
  {| next_handle := S (S (next_handle w));
     live := filter (fun id => negb (Nat.eqb id (S (next_handle w))))
               ((live w ++ [next_handle w]) ++ [S (next_handle w)]);
     calls := calls w ++ [call_predict [array [number i; Get pm p]]];
     chartData := chartData w |}.

Definition after_forecast (pm : Object) (w : World) : World :=
  fold_left
    (fun w i =>
       fold_left (fun w p => after_predict_one pm i p w) (Object_keys pm) w)
    forecast_months w.

(** Every live handle has been handed out. *)
Definition handles_ok (w : World) : Prop :=
  Forall (fun id => (id < next_handle w)%nat) (live w).

(** The kind of a call. *)
Definition is_fit (c : Call) : bool :=
  match c with
  | call_fit _ _ _ => true
  | call_predict _ => false
  end.

Definition is_predict (c : Call) : bool := negb (is_fit c).

(** The forecast point for month [i] and product [p]. *)
Definition point (model : Trained) (pm : Object) (i : Z) (p : string)
  : Prediction :=
  {| product := p; month := number i;
     predicted := model [array [number i; Get pm p]] |}.

(** The forecast in month-major order with the products of each month in
    the order in which the mapping received them. *)
Definition insertion_order_forecast (model : Trained) (pm : Object)
  : list Prediction :=
  flat_map (fun i => map (point model pm i) (map fst pm)) forecast_months.

(** The forecast with the products of each month as [Object.keys] lists
    them. *)
Definition keys_order_forecast (model : Trained) (pm : Object)
  : list Prediction :=
  flat_map (fun i => map (point model pm i) (Object_keys pm)) forecast_months.

(** Inputs used in the examples. *)
Definition two_records : list SalesRecord :=
  [ {| sales_date := "2024-01-15"; product_description := "A";
       quantity_sold := "5" |};
    {| sales_date := "bad-date"; product_description := "B";
       quantity_sold := "3" |} ].

Definition sku_records : list SalesRecord :=
  [ {| sales_date := "2024-01-15"; product_description := "10";
       quantity_sold := "5" |};
    {| sales_date := "2024-03-15"; product_description := "2";
       quantity_sold := "7.5" |} ].

Definition unparsed_quantity : list SalesRecord :=
  [ {| sales_date := "2024-01-15"; product_description := "A";
       quantity_sold := "not-a-number" |} ].

Definition undated_records : list SalesRecord :=
  [ {| sales_date := "bad-date"; product_description := "B";
       quantity_sold := "3" |} ].

Definition dated_records : list SalesRecord :=
  [ {| sales_date := "2024-01-15"; product_description := "A";
       quantity_sold := "5" |};
    {| sales_date := "2024-02-20"; product_description := "B";
       quantity_sold := "3" |} ].

(** A model that predicts zero everywhere. *)
Definition zero_model : Trained := fun _ => pos_zero.

(** A backend for running examples: training rejects inputs and targets
    of different sample counts, as [model.fit] does, and otherwise ends
    with [zero_model]. *)
Definition zero_backend : Backend :=
  {| train := fun _ xs ys _ =>
                if Nat.eqb (List.length xs) (List.length ys)
                then Some zero_model
                else None |}.

(** The chart that [visualizeResults] sets. *)
Definition chart_of (predictions : list Prediction) : ChartData :=
  {| labels := month_labels;
     datasets :=
       map (fun p =>
              Build_Dataset p
                (map predicted
                     (filter (fun q => String.eqb (product q) p)
                             predictions)))
           (Set_from (map product predictions)) |}.

(** The calls to [model.predict] of one forecast. *)
Definition predict_calls (pm : Object) : list Call :=
  flat_map
    (fun i => map (fun p => call_predict [array [number i; Get pm p]])
                  (Object_keys pm))
    forecast_months.

(* ===================================================================== *)
(** * The rest of the component *)
(* ===================================================================== *)

(** The style that [visualizeResults] gives the dataset at [index]; the
    two copies of the component differ in it. *)
Record Style : Type := {
  borderColor : option string;        (* [None] is undefined *)
  backgroundColor : option string;
  borderDash : option (list nat);
  tension : Number;
  fill : bool;
  pointRadius : nat;
  pointHoverRadius : nat
}.

(** The literal [0.4]. *)
Definition tension_0_4 : Number := round_decimal false 4 (-1).

(** src/SalesForecasting.js *)
Module GradientStyle.

Definition colors : list string :=
  ["rgba(255, 99, 132, 0.5)"; "rgba(54, 162, 235, 0.5)";
   "rgba(75, 192, 192, 0.5)"].

Definition borderColors : list string :=
  ["rgba(255, 99, 132, 1)"; "rgba(54, 162, 235, 1)";
   "rgba(75, 192, 192, 1)"].

Definition style (index : nat) : Style :=
  {| borderColor :=
       nth_error borderColors (index mod List.length borderColors);
     backgroundColor := nth_error colors (index mod List.length colors);
     borderDash := Some [5; 5]%nat;
     tension := tension_0_4;
     fill := true;
     pointRadius := 6;
     pointHoverRadius := 8 |}.

End GradientStyle.

(** The second copy of the component. *)
Module PlainStyle.

Definition colors : list string :=
  ["#FF6384"; "#36A2EB"; "#FFCE56"; "#4BC0C0"; "#9966FF"; "#FF9F40"].

Definition style (index : nat) : Style :=
  {| borderColor := nth_error colors (index mod List.length colors);
     backgroundColor :=
       Some (String.append
               (match nth_error colors (index mod List.length colors) with
                | Some c => c
                | None => "undefined"
                end) "80");
     borderDash := None;
     tension := tension_0_4;
     fill := false;
     pointRadius := 5;
     pointHoverRadius := 7 |}.

End PlainStyle.

(** The styles of the datasets of a chart, [products.map((product, index)
    => ...)]. *)
Definition dataset_styles (style : nat -> Style) (predictions : list Prediction)
  : list (string * Style) :=
  mapi (fun product index => (product, style index))
       (Set_from (map product predictions)).



(** The chart is rendered when [chartData] is not null. *)
Definition renders_chart (w : World) : bool :=
  match chartData w with
  | Some _ => true
  | None => false
  end.

(** * More vocabulary *)

(** The date of the record parses. *)
Definition parses (host : Host) (row : SalesRecord) : bool :=
  match month_of host row with
  | Some _ => true
  | None => false
  end.

(** The world once the two training tensors are made and [fit] has been
    called. *)
Definition after_fit (e : Encoded) (w : World) : World :=
  {| next_handle := S (S (next_handle w));
     live := (live w ++ [next_handle w]) ++ [S (next_handle w)];
     calls := calls w ++ [call_fit (inputs e) (outputs e) 50];
     chartData := chartData w |}.

(** The datasets of the chart of a forecast: for each product, as
    [Object.keys] lists them, the predictions of the six months. *)
Definition forecast_datasets (model : Trained) (pm : Object) : list Dataset :=
  map (fun p =>
         Build_Dataset p
           (map (fun i => model [array [number i; Get pm p]])
                forecast_months))
      (Object_keys pm).

(** A batch with other quantities, and one with other dates and
    descriptions. *)
Definition with_quantities (f : SalesRecord -> string)
  (batch : list SalesRecord) : list SalesRecord :=
  map (fun row =>
         {| sales_date := sales_date row;
            product_description := product_description row;
            quantity_sold := f row |}) batch.

Definition with_dates_and_products (f g : SalesRecord -> string)
  (batch : list SalesRecord) : list SalesRecord :=
  map (fun row =>
         {| sales_date := f row;
            product_description := g row;
            quantity_sold := quantity_sold row |}) batch.

(** The number of values over the datasets of a chart. *)
Definition chart_values (c : ChartData) : nat :=
  list_sum (map (fun d => List.length (TF.data d)) (datasets c)).

(* ===================================================================== *)
(** * Arrays, sets and objects *)
(* ===================================================================== *)

Section ArrayFacts.

Context {A B : Type}.

Lemma mapi_from_length (f : A -> nat -> B) (a : list A) :
  forall i, List.length (mapi_from f i a) = List.length a.
Proof.
  induction a as [|x a IH]; intros i; simpl; [reflexivity|].
  now rewrite IH.
Qed.

Lemma mapi_from_map_fst (g : A -> nat -> B) (h : B -> A) (a : list A) :
  (forall x i, h (g x i) = x) ->
  forall i, map h (mapi_from g i a) = a.
Proof.
  intros Hh. induction a as [|x a IH]; intros i; simpl; [reflexivity|].
  now rewrite Hh, IH.
Qed.

(** A callback that pays no attention to the index is a plain [map]. *)
Lemma mapi_from_no_index (f : A -> nat -> B) (g : A -> B) (a : list A) :
  forall i, (forall x j, In x a -> f x j = g x) ->
            mapi_from f i a = map g a.
Proof.
  induction a as [|x a IH]; intros i Hf; simpl; [reflexivity|].
  rewrite Hf by now left. f_equal. apply IH. intros; apply Hf; now right.
Qed.

(** A predicate that holds at every index keeps the whole array. *)
Lemma filteri_from_all (f : A -> nat -> bool) (a : list A) :
  forall i, (forall x j, f x j = true) -> filteri_from f i a = a.
Proof.
  induction a as [|x a IH]; intros i Hf; simpl; [reflexivity|].
  rewrite Hf. f_equal. now apply IH.
Qed.

End ArrayFacts.

(** Reading the mapped copy of an array at the index being visited gives
    the image of the element being visited. *)
Lemma mapi_from_at_index {A B : Type} (g : A -> Value)
  (F : A -> Value -> B) (a : list A) :
  forall pre full,
    full = pre ++ a ->
    mapi_from (fun x i => F x (at_index (map g full) i)) (List.length pre) a
    = map (fun x => F x (g x)) a.
Proof.
  induction a as [|x a IH]; intros pre full Hfull; simpl; [reflexivity|].
  f_equal.
  - subst full. unfold at_index. rewrite map_app, app_nth2.
    + rewrite length_map, Nat.sub_diag. reflexivity.
    + rewrite length_map. lia.
  - specialize (IH (pre ++ [x]) full).
    rewrite length_app in IH. simpl in IH.
    rewrite Nat.add_1_r in IH. apply IH.
    subst full. now rewrite <- app_assoc.
Qed.

Lemma mapi_at_index {A B : Type} (g : A -> Value) (F : A -> Value -> B)
  (a : list A) :
  mapi (fun x i => F x (at_index (map g a) i)) a
  = map (fun x => F x (g x)) a.
Proof. exact (mapi_from_at_index g F a [] a eq_refl). Qed.

Lemma at_index_not_null (a : list Value) (i : nat) :
  Forall (fun v => not_null v = true) a -> not_null (at_index a i) = true.
Proof.
  intros Ha. unfold at_index.
  destruct (Nat.lt_ge_cases i (List.length a)) as [Hi|Hi].
  - rewrite Forall_forall in Ha. apply Ha. now apply nth_In.
  - now rewrite nth_overflow.
Qed.

Lemma filter_not_null_Forall (a : list Value) :
  Forall (fun v => not_null v = true) (filter not_null a).
Proof.
  apply Forall_forall. intros v Hv. now apply filter_In in Hv.
Qed.

(** ** First occurrences *)

Lemma index_of_lt (x : string) (l : list string) :
  In x l <-> (index_of x l < List.length l)%nat.
Proof.
  induction l as [|y l IH]; simpl.
  - split; [tauto | lia].
  - destruct (String.eqb_spec x y) as [->|Hxy].
    + split; [lia | now left].
    + rewrite <- Nat.succ_lt_mono, <- IH. split; [|tauto].
      intros [Hy|Hin]; [congruence | assumption].
Qed.

Lemma index_of_app_in (x : string) (l m : list string) :
  In x l -> index_of x (l ++ m) = index_of x l.
Proof.
  induction l as [|y l IH]; simpl; [tauto|].
  intros Hin. destruct (String.eqb_spec x y) as [->|Hxy]; [reflexivity|].
  f_equal. apply IH. destruct Hin; [congruence | assumption].
Qed.

Lemma index_of_app_notin (x : string) (l m : list string) :
  ~ In x l -> index_of x (l ++ m) = (List.length l + index_of x m)%nat.
Proof.
  induction l as [|y l IH]; simpl; [reflexivity|].
  intros Hin. destruct (String.eqb_spec x y) as [->|Hxy]; [tauto|].
  f_equal. apply IH. tauto.
Qed.

Lemma nth_error_index_of (x : string) (l : list string) :
  In x l -> nth_error l (index_of x l) = Some x.
Proof.
  induction l as [|y l IH]; simpl; [tauto|].
  intros Hin. destruct (String.eqb_spec x y) as [->|Hxy]; [reflexivity|].
  simpl. apply IH. destruct Hin; [congruence | assumption].
Qed.

Lemma index_of_nth_error (l : list string) :
  NoDup l ->
  forall i x, nth_error l i = Some x -> index_of x l = i.
Proof.
  induction 1 as [|y l Hy Hnd IH]; intros [|i] x; simpl; try discriminate.
  - intros [= ->]. now rewrite String.eqb_refl.
  - intros Hx. destruct (String.eqb_spec x y) as [->|Hxy].
    + apply nth_error_In in Hx. contradiction.
    + f_equal. now apply IH.
Qed.

(** ** Sets *)

Lemma Set_has_In (s : list string) (x : string) :
  Set_has s x = true <-> In x s.
Proof.
  unfold Set_has. rewrite existsb_exists. split.
  - intros [y [Hy Heq]]. apply String.eqb_eq in Heq. now subst.
  - intros Hin. exists x. split; [assumption | apply String.eqb_refl].
Qed.

Lemma Set_from_snoc (a : list string) (x : string) :
  Set_from (a ++ [x]) = Set_add (Set_from a) x.
Proof. unfold Set_from. now rewrite fold_left_app. Qed.

Lemma Set_add_In (s : list string) (x y : string) :
  In y (Set_add s x) <-> In y s \/ y = x.
Proof.
  unfold Set_add. destruct (Set_has s x) eqn:Hx.
  - apply Set_has_In in Hx. split; [tauto|]. intros [H| ->]; assumption.
  - rewrite in_app_iff. simpl. intuition congruence.
Qed.

(** A Set holds exactly the elements of the array it was made from. *)
Lemma Set_from_In (a : list string) (y : string) :
  In y (Set_from a) <-> In y a.
Proof.
  induction a as [|x a IH] using rev_ind.
  - reflexivity.
  - rewrite Set_from_snoc, Set_add_In, in_app_iff, IH. simpl. intuition.
Qed.

(** ... each of them once ... *)
Lemma Set_from_NoDup (a : list string) : NoDup (Set_from a).
Proof.
  induction a as [|x a IH] using rev_ind.
  - constructor.
  - rewrite Set_from_snoc. unfold Set_add.
    destruct (Set_has (Set_from a) x) eqn:Hx; [assumption|].
    apply NoDup_app; [assumption | repeat constructor; simpl; tauto |].
    intros y Hy [<-|[]]. apply Set_has_In in Hy. congruence.
Qed.

(** ... in the order in which they first occur. *)
Lemma Set_from_order (a : list string) (x y : string) :
  In x a -> In y a ->
  ((index_of x (Set_from a) < index_of y (Set_from a))%nat
   <-> (index_of x a < index_of y a)%nat).
Proof.
  revert x y. induction a as [|z a IH] using rev_ind; intros x y Hx Hy.
  - destruct Hx.
  - rewrite Set_from_snoc. unfold Set_add.
    destruct (Set_has (Set_from a) z) eqn:Hz.
    + apply Set_has_In in Hz. rewrite Set_from_In in Hz.
      assert (Hin : forall u, In u (a ++ [z]) -> In u a).
      { intros u Hu. apply in_app_iff in Hu.
        destruct Hu as [Hu|[Hu|[]]]; [assumption | now subst u]. }
      apply Hin in Hx, Hy.
      rewrite !index_of_app_in by assumption. now apply IH.
    + assert (Hza : ~ In z a).
      { intros Hin. apply Set_from_In, Set_has_In in Hin. congruence. }
      assert (Hzs : ~ In z (Set_from a)) by now rewrite Set_from_In.
      assert (Hlen : forall u, In u a ->
                (index_of u (Set_from a ++ [z]) < List.length (Set_from a)
                 /\ index_of u (a ++ [z]) < List.length a
                 /\ index_of u (Set_from a ++ [z]) = index_of u (Set_from a)
                 /\ index_of u (a ++ [z]) = index_of u a)%nat).
      { intros u Hu. rewrite !index_of_app_in by now rewrite ?Set_from_In.
        repeat split; apply index_of_lt; now rewrite ?Set_from_In. }
      assert (Hnew : index_of z (Set_from a ++ [z]) = List.length (Set_from a)
                     /\ index_of z (a ++ [z]) = List.length a).
      { rewrite !index_of_app_notin by assumption. simpl.
        rewrite String.eqb_refl. lia. }
      apply in_app_iff in Hx. apply in_app_iff in Hy.
      destruct Hx as [Hx|[<-|[]]], Hy as [Hy|[<-|[]]].
      * destruct (Hlen x Hx) as (_ & _ & -> & ->).
        destruct (Hlen y Hy) as (_ & _ & -> & ->). now apply IH.
      * destruct (Hlen x Hx) as (? & ? & _ & _).
        destruct Hnew as [-> ->]. tauto.
      * destruct (Hlen y Hy) as (? & ? & _ & _).
        destruct Hnew as [-> ->]. lia.
      * lia.
Qed.

(** ** Objects *)

Lemma own_property_None (o : Object) (k : string) :
  own_property o k = None <-> ~ In k (map fst o).
Proof.
  induction o as [|[k' v] o IH]; simpl; [tauto|].
  destruct (String.eqb_spec k k') as [->|Hk].
  - split; [discriminate | tauto].
  - rewrite IH. intuition congruence.
Qed.

Lemma set_property_fresh (o : Object) (k : string) (v : Value) :
  ~ In k (map fst o) -> set_property o k v = o ++ [(k, v)].
Proof.
  induction o as [|[k' v'] o IH]; simpl; [reflexivity|].
  intros Hk. destruct (String.eqb_spec k k') as [->|Hkk]; [tauto|].
  f_equal. apply IH. tauto.
Qed.

(** Entries with distinct keys become the properties, in their order. *)
Lemma fromEntries_distinct (entries : list (string * Value)) :
  NoDup (map fst entries) -> Object_fromEntries entries = entries.
Proof.
  unfold Object_fromEntries.
  enough (H : forall o, NoDup (map fst (o ++ entries)) ->
            fold_left (fun o e => set_property o (fst e) (snd e)) entries o
            = o ++ entries) by (intros Hnd; now apply (H [])).
  induction entries as [|[k v] es IH]; intros o Hnd; simpl.
  - now rewrite app_nil_r.
  - rewrite set_property_fresh.
    + rewrite IH; rewrite <- app_assoc; [reflexivity | exact Hnd].
    + rewrite map_app in Hnd. simpl in Hnd.
      apply NoDup_remove_2 in Hnd. rewrite in_app_iff in Hnd. tauto.
Qed.

(** The lookup of a key in the entries [p_i -> i] numbered from [i0]. *)
Lemma own_property_numbered (ps : list string) (k : string) :
  forall i0, In k ps ->
    own_property (mapi_from (fun p i => (p, number (Z.of_nat i))) i0 ps) k
    = Some (number (Z.of_nat (i0 + index_of k ps))).
Proof.
  induction ps as [|p ps IH]; intros i0 Hin; simpl; [destruct Hin|].
  destruct (String.eqb_spec k p) as [->|Hkp].
  - now rewrite Nat.add_0_r.
  - rewrite IH by (destruct Hin; [congruence | assumption]).
    now rewrite Nat.add_succ_r.
Qed.

(* ===================================================================== *)
(** * The encoder *)
(* ===================================================================== *)

Section Encoder.

Variable host : Host.

Lemma mapping_of_keys (data : list SalesRecord) :
  map fst (mapping_of data) = products_of data.
Proof. apply mapi_from_map_fst. reflexivity. Qed.

Lemma productMapping_eq (data : list SalesRecord) :
  productMapping (preprocessData host (Some data)) = mapping_of data.
Proof.
  unfold preprocessData. destruct data as [|row data]; [reflexivity|].
  cbn [List.length Nat.eqb productMapping].
  apply fromEntries_distinct.
  change (NoDup (map fst (mapping_of (row :: data)))).
  rewrite mapping_of_keys. apply Set_from_NoDup.
Qed.

(** Looking up a description of the batch gives its number. *)
Lemma Get_mapping_of (data : list SalesRecord) (p : string) :
  In p (map product_description data) ->
  Get (mapping_of data) p
  = number (Z.of_nat (index_of p (products_of data))).
Proof.
  intros Hp. unfold Get, mapping_of, mapi.
  rewrite own_property_numbered by now apply Set_from_In.
  reflexivity.
Qed.

Lemma filter_not_null_features (data rows : list SalesRecord) :
  incl rows data ->
  filter not_null
    (map (fun row =>
            if not_null (match new_Date host (sales_date row) with
                         | Some t => number (getMonth host t + 1)
                         | None => null
                         end)
               && not_undefined
                    (Get (mapping_of data) (product_description row))
            then array [match new_Date host (sales_date row) with
                        | Some t => number (getMonth host t + 1)
                        | None => null
                        end;
                        Get (mapping_of data) (product_description row)]
            else null) rows)
  = flat_map (feature_of host data) rows.
Proof.
  induction rows as [|row rows IH]; intros Hincl; [reflexivity|].
  assert (Hrow : In (product_description row)
                    (map product_description data)).
  { apply in_map, Hincl. now left. }
  cbn [map flat_map]. rewrite <- IH by (intros r Hr; apply Hincl; now right).
  unfold feature_of at 1, month_of.
  rewrite (Get_mapping_of data _ Hrow).
  destruct (new_Date host (sales_date row)); reflexivity.
Qed.

Lemma inputs_eq (data : list SalesRecord) :
  inputs (preprocessData host (Some data))
  = flat_map (feature_of host data) data.
Proof.
  pose proof (productMapping_eq data) as Hpm.
  unfold preprocessData in *. destruct data as [|row data]; [reflexivity|].
  cbn [List.length Nat.eqb productMapping inputs] in *.
  rewrite Hpm.
  rewrite (mapi_at_index
             (fun row => match new_Date host (sales_date row) with
                         | Some t => number (getMonth host t + 1)
                         | None => null
                         end)
             (fun r v =>
                if not_null v
                   && not_undefined
                        (Get (mapping_of (row :: data))
                             (product_description r))
                then array [v; Get (mapping_of (row :: data))
                                   (product_description r)]
                else null) (row :: data)).
  apply filter_not_null_features, incl_refl.
Qed.

(** No target is ever dropped: the test reads the filtered array, which
    holds no [null], and [undefined] beyond its end. *)
Lemma outputs_eq (data : list SalesRecord) :
  outputs (preprocessData host (Some data)) = map quantity_of data.
Proof.
  unfold preprocessData. destruct data as [|row data]; [reflexivity|].
  cbn [List.length Nat.eqb outputs]. unfold filteri.
  apply filteri_from_all. intros q j.
  apply at_index_not_null, filter_not_null_Forall.
Qed.

End Encoder.

(* ===================================================================== *)
(** * Property enumeration *)
(* ===================================================================== *)

Lemma insert_index_perm (n : N) (k : string) (l : list (N * string)) :
  Permutation (insert_index n k l) ((n, k) :: l).
Proof.
  induction l as [|[n' k'] l IH]; simpl; [reflexivity|].
  destruct (n <=? n')%N; [reflexivity|].
  rewrite IH. apply perm_swap.
Qed.

Lemma index_keys_perm (ks : list string) :
  Permutation (map snd (index_keys ks)) (filter is_array_index ks).
Proof.
  induction ks as [|k ks IH]; simpl; [reflexivity|].
  unfold is_array_index at 1. destruct (array_index k) as [n|]; [|assumption].
  rewrite insert_index_perm. simpl. now constructor.
Qed.

Lemma filter_split_perm {A : Type} (p : A -> bool) (l : list A) :
  Permutation (filter p l ++ filter (fun x => negb (p x)) l) l.
Proof.
  induction l as [|x l IH]; simpl; [reflexivity|].
  destruct (p x); simpl.
  - now constructor.
  - rewrite <- Permutation_middle. now constructor.
Qed.

(** [Object.keys] lists every own key once. *)
Lemma Object_keys_perm (o : Object) :
  Permutation (Object_keys o) (map fst o).
Proof.
  unfold Object_keys, OwnPropertyKeys.
  rewrite index_keys_perm. apply filter_split_perm.
Qed.

Lemma Object_keys_length (o : Object) :
  List.length (Object_keys o) = List.length o.
Proof.
  rewrite (Permutation_length (Object_keys_perm o)). apply length_map.
Qed.

Lemma index_keys_none (ks : list string) :
  forallb (fun k => negb (is_array_index k)) ks = true ->
  index_keys ks = [].
Proof.
  induction ks as [|k ks IH]; simpl; [reflexivity|].
  unfold is_array_index at 1. destruct (array_index k); [discriminate|].
  exact IH.
Qed.

(** Without array indices among the keys, the order is that of creation. *)
Lemma Object_keys_creation_order (o : Object) :
  forallb (fun k => negb (is_array_index k)) (map fst o) = true ->
  Object_keys o = map fst o.
Proof.
  intros H. unfold Object_keys, OwnPropertyKeys.
  rewrite index_keys_none by assumption. simpl.
  rewrite forallb_forall in H. clear -H.
  induction (map fst o) as [|k ks IH]; simpl; [reflexivity|].
  rewrite H by now left. f_equal. apply IH. intros; apply H; now right.
Qed.

(** The array indices come in ascending numeric order. *)
Lemma insert_index_sorted (n : N) (k : string) (l : list (N * string)) :
  StronglySorted (fun a b => (fst a <= fst b)%N) l ->
  StronglySorted (fun a b => (fst a <= fst b)%N) (insert_index n k l).
Proof.
  induction 1 as [|[n' k'] l Hs IH Hall]; simpl.
  - repeat constructor.
  - destruct (N.leb_spec n n') as [Hle|Hlt].
    + constructor; [now constructor|].
      constructor; [assumption|].
      eapply Forall_impl; [|exact Hall]. simpl. intros; lia.
    + constructor; [assumption|].
      eapply Permutation_Forall;
        [symmetry; apply insert_index_perm|].
      constructor; [simpl; lia | assumption].
Qed.

Lemma index_keys_sorted (ks : list string) :
  StronglySorted (fun a b => (fst a <= fst b)%N) (index_keys ks).
Proof.
  induction ks as [|k ks IH]; simpl; [constructor|].
  destruct (array_index k); [now apply insert_index_sorted | assumption].
Qed.

Lemma index_keys_sound (ks : list string) :
  Forall (fun e => array_index (snd e) = Some (fst e)) (index_keys ks).
Proof.
  induction ks as [|k ks IH]; simpl; [constructor|].
  destruct (array_index k) as [n|] eqn:Hk; [|assumption].
  eapply Permutation_Forall; [symmetry; apply insert_index_perm|].
  now constructor.
Qed.

(* ===================================================================== *)
(** * The forecast loop *)
(* ===================================================================== *)

(** A loop whose body always completes normally completes normally. *)
Lemma for_each_run {A S : Type} (body : S -> A -> M S)
  (f : S -> A -> S) (g : A -> World -> World) :
  (forall acc x w, body acc x w = (normal (f acc x), g x w)) ->
  forall l acc w,
    for_each l body acc w
    = (normal (fold_left f l acc), fold_left (fun w x => g x w) l w).
Proof.
  intros Hbody. induction l as [|x l IH]; intros acc w; simpl.
  - reflexivity.
  - unfold bind. rewrite Hbody. apply IH.
Qed.

Lemma fold_left_push {A B : Type} (f : A -> B) (l : list A) :
  forall acc, fold_left (fun acc x => acc ++ [f x]) l acc = acc ++ map f l.
Proof.
  induction l as [|x l IH]; intros acc; simpl.
  - now rewrite app_nil_r.
  - rewrite IH, <- app_assoc. reflexivity.
Qed.

Lemma fold_left_extend {A B : Type} (f : A -> list B) (l : list A) :
  forall acc, fold_left (fun acc x => acc ++ f x) l acc = acc ++ flat_map f l.
Proof.
  induction l as [|x l IH]; intros acc; simpl.
  - now rewrite app_nil_r.
  - rewrite IH, <- app_assoc. reflexivity.
Qed.

Section Forecast.

Variable model : Trained.
Variable pm : Object.

Lemma predict_one_run (i : Z) (predictions : list Prediction) (p : string)
  (w : World) :
  predict_one model pm i predictions p w
  = (normal (predictions ++ [point model pm i p]),
     after_predict_one pm i p w).
Proof.
  unfold predict_one, bind, tensor2d, predict, bind, record_call, tensor2d,
    dataSync, dispose, ret. cbn [handle values live next_handle calls
                                 chartData].
  rewrite existsb_app. cbn [existsb]. rewrite Nat.eqb_refl, orb_true_r.
  reflexivity.
Qed.

(** The loop completes normally, with the points of the six months over
    the keys of the mapping as [Object.keys] lists them. *)
Lemma forecast_run (w : World) :
  forecast model pm w
  = (normal (keys_order_forecast model pm), after_forecast pm w).
Proof.
  unfold forecast.
  rewrite (for_each_run
             (fun predictions i =>
                for_each (Object_keys pm) (predict_one model pm i)
                         predictions)
             (fun acc i => acc ++ map (point model pm i) (Object_keys pm))
             (fun i w => fold_left (fun w p => after_predict_one pm i p w)
                                   (Object_keys pm) w)).
  - rewrite fold_left_extend. reflexivity.
  - intros acc i w'.
    rewrite (for_each_run (predict_one model pm i)
               (fun acc p => acc ++ [point model pm i p])
               (after_predict_one pm i)).
    + now rewrite fold_left_push.
    + intros; apply predict_one_run.
Qed.

(** One pass leaves exactly one more live tensor: the input. *)
Lemma after_predict_one_live (i : Z) (p : string) (w : World) :
  handles_ok w ->
  live (after_predict_one pm i p w) = live w ++ [next_handle w]
  /\ handles_ok (after_predict_one pm i p w).
Proof.
  intros Hok. unfold handles_ok in *. cbn [after_predict_one live next_handle].
  assert (Hlive :
    filter (fun id => negb (Nat.eqb id (S (next_handle w))))
      ((live w ++ [next_handle w]) ++ [S (next_handle w)])
    = live w ++ [next_handle w]).
  { rewrite filter_app. cbn [filter]. rewrite Nat.eqb_refl. cbn [negb].
    rewrite app_nil_r. apply forallb_filter_id, forallb_forall.
    intros id Hid. apply negb_true_iff, Nat.eqb_neq.
    apply in_app_iff in Hid. rewrite Forall_forall in Hok.
    destruct Hid as [Hid|[<-|[]]]; [apply Hok in Hid|]; lia. }
  rewrite Hlive. split; [reflexivity|].
  apply Forall_app. split.
  - eapply Forall_impl; [|exact Hok]. simpl. intros; lia.
  - repeat constructor.
Qed.

Lemma after_keys_live (i : Z) (ks : list string) :
  forall w, handles_ok w ->
    let w' := fold_left (fun w p => after_predict_one pm i p w) ks w in
    List.length (live w') = (List.length (live w) + List.length ks)%nat
    /\ handles_ok w'.
Proof.
  induction ks as [|k ks IH]; intros w Hok; simpl.
  - split; [lia | assumption].
  - destruct (after_predict_one_live i k w Hok) as [Hl Hok'].
    destruct (IH _ Hok') as [Hlen Hok'']. split; [|assumption].
    rewrite Hlen, Hl, length_app. simpl. lia.
Qed.

Lemma after_months_live (ms : list Z) :
  forall w, handles_ok w ->
    let w' :=
      fold_left
        (fun w i =>
           fold_left (fun w p => after_predict_one pm i p w)
                     (Object_keys pm) w) ms w in
    List.length (live w')
    = (List.length (live w) + List.length ms * List.length pm)%nat
    /\ handles_ok w'.
Proof.
  induction ms as [|i ms IH]; intros w Hok; simpl.
  - split; [lia | assumption].
  - destruct (after_keys_live i (Object_keys pm) w Hok) as [Hl Hok'].
    destruct (IH _ Hok') as [Hlen Hok'']. split; [|assumption].
    rewrite Hlen, Hl, Object_keys_length. lia.
Qed.

End Forecast.

(* ===================================================================== *)
(** * Calendar arithmetic *)
(* ===================================================================== *)

Section Calendar.

Local Open Scope Z_scope.

Lemma DayFromYear_succ (y : Z) :
  DayFromYear (y + 1) = DayFromYear y + DaysInYear y.
Proof.
  unfold DayFromYear, DaysInYear.
  destruct (Z.eqb_spec (y mod 4) 0), (Z.eqb_spec (y mod 100) 0),
    (Z.eqb_spec (y mod 400) 0); cbn [negb];
    Z.to_euclidean_division_equations; lia.
Qed.

Lemma DayFromYear_mono (y y' : Z) :
  y <= y' -> DayFromYear y <= DayFromYear y'.
Proof.
  intros Hle. unfold DayFromYear. Z.to_euclidean_division_equations. lia.
Qed.

(** [YearFromTime t] is the year whose days hold [Day t]. *)
Lemma YearFromTime_spec (t : Z) :
  DayFromYear (YearFromTime t) <= Day t < DayFromYear (YearFromTime t + 1).
Proof.
  unfold YearFromTime. set (d := Day t). clearbody d.
  destruct (Z.ltb_spec d (DayFromYear (1970 + d * 400 / 146097))) as [H1|H1].
  - replace (1970 + d * 400 / 146097 - 1 + 1)
      with (1970 + d * 400 / 146097) by lia.
    split; [|assumption]. revert H1. unfold DayFromYear.
    Z.to_euclidean_division_equations. lia.
  - destruct (Z.leb_spec (DayFromYear (1970 + d * 400 / 146097 + 1)) d)
      as [H2|H2]; [|lia].
    split; [lia|]. revert H1 H2. unfold DayFromYear.
    Z.to_euclidean_division_equations. lia.
Qed.

(** It is the largest year that starts no later than [t]. *)
Lemma YearFromTime_largest (t y : Z) :
  DayFromYear y <= Day t <-> y <= YearFromTime t.
Proof.
  pose proof (YearFromTime_spec t) as [Hlo Hhi]. split; intros H.
  - destruct (Z.le_gt_cases y (YearFromTime t)) as [|Hgt]; [assumption|].
    pose proof (DayFromYear_mono (YearFromTime t + 1) y). lia.
  - pose proof (DayFromYear_mono y (YearFromTime t)). lia.
Qed.

Lemma MonthFromTime_range (t : Z) : 0 <= MonthFromTime t <= 11.
Proof.
  unfold MonthFromTime.
  repeat match goal with
         | |- context [if ?b then _ else _] => destruct b
         end; lia.
Qed.

(** The month of a feature vector is a month of the calendar. *)
Lemma month_of_range (host : Host) (row : SalesRecord) (m : Z) :
  month_of host row = Some m -> 1 <= m <= 12.
Proof.
  unfold month_of, getMonth.
  destruct (new_Date host (sales_date row)) as [t|]; [|discriminate].
  intros [= <-]. pose proof (MonthFromTime_range (LocalTime host t)). lia.
Qed.

End Calendar.

(* ===================================================================== *)
(** * Properties of the encoder *)
(* ===================================================================== *)

(** The encoder keeps one target per record and one feature vector per
    record whose date parses. *)
Lemma encoder_counts (host : Host) (data : list SalesRecord) :
  List.length (outputs (preprocessData host (Some data))) = List.length data
  /\ List.length (inputs (preprocessData host (Some data)))
     = List.length
         (filter (fun row => match month_of host row with
                             | Some _ => true
                             | None => false
                             end) data).
Proof.
  rewrite outputs_eq, inputs_eq, length_map. split; [reflexivity|].
  generalize data at 1. intros batch.
  induction data as [|row data IH]; [reflexivity|].
  cbn [flat_map filter]. rewrite length_app, IH. unfold feature_of.
  destruct (month_of host row); reflexivity.
Qed.

(** C1 (the code departs from the claim).  The claim: features and
    targets have the same length for every input, a record whose date
    fails to parse being dropped from both.  On the two records of
    [two_records], the second with an unparseable date, the encoder
    returns one feature vector and two targets: the record is dropped
    from the features only. *)
Theorem C1_lengths_differ :
  List.length (inputs (preprocessData utc_host (Some two_records))) = 1%nat
  /\ List.length (outputs (preprocessData utc_host (Some two_records)))
     = 2%nat.
Proof. split; reflexivity. Qed.

(** C2 (the code departs from the claim).  The claim: on [two_records]
    the encoder returns the single feature vector [[1, 0]] and the single
    target 5.  The feature vector is as claimed; the targets are 5 and 3,
    the target of the excluded record being kept. *)
Theorem C2_two_records_encoding :
  preprocessData utc_host (Some two_records)
  = {| inputs := [array [number 1; number 0]];
       outputs := [of_N 5; of_N 3];
       productMapping := [("A", number 0); ("B", number 1)] |}.
Proof. vm_compute. reflexivity. Qed.

(** The targets of [two_records] are the same on every host. *)
Lemma two_records_targets (host : Host) :
  outputs (preprocessData host (Some two_records)) = [of_N 5; of_N 3].
Proof. rewrite outputs_eq. vm_compute. reflexivity. Qed.

Lemma flat_map_ext_in {A B : Type} (f g : A -> list B) (l : list A) :
  (forall x, In x l -> f x = g x) -> flat_map f l = flat_map g l.
Proof.
  induction l as [|x l IH]; intros H; simpl; [reflexivity|].
  rewrite H by now left. f_equal. apply IH. intros; apply H; now right.
Qed.

Lemma encode_row_feature_of (host : Host) (data : list SalesRecord)
  (row : SalesRecord) :
  In row data ->
  encode_row host (mapping_of data) row = feature_of host data row.
Proof.
  intros Hrow. unfold encode_row, feature_of.
  rewrite Get_mapping_of by now apply in_map. reflexivity.
Qed.

(** C4.  A record contributes a feature vector exactly when its month is
    defined and its product index is defined, the contributions follow
    the order of the records, and the month of a date that does not
    parse is undefined (the encoder is total: nothing is raised). *)
Theorem C4_inclusion_rule (host : Host) (data : list SalesRecord) :
  let e := preprocessData host (Some data) in
  inputs e = flat_map (encode_row host (productMapping e)) data
  /\ (forall row,
        encode_row host (productMapping e) row <> []
        <-> (month_of host row <> None
             /\ Get (productMapping e) (product_description row)
                <> undefined))
  /\ (forall row,
        (List.length (encode_row host (productMapping e) row) <= 1)%nat)
  /\ (forall row,
        month_of host row = None
        <-> Date_parse host (sales_date row) = None).
Proof.
  cbv zeta. rewrite productMapping_eq. split; [|split; [|split]].
  - rewrite inputs_eq. symmetry. apply flat_map_ext_in.
    intros; now apply encode_row_feature_of.
  - intros row. unfold encode_row.
    destruct (month_of host row) as [m|].
    + destruct (Get (mapping_of data) (product_description row)); simpl;
        (split; [intros H; try (split; congruence); congruence
                | intros [H1 H2]; congruence]).
    + split; [congruence | intros [H _]; congruence].
  - intros row. unfold encode_row. destruct (month_of host row); [|simpl; lia].
    destruct (not_undefined _); simpl; lia.
  - intros row. unfold month_of, new_Date.
    destruct (Date_parse host (sales_date row)); split; congruence.
Qed.

Lemma incl_flat_map {A B : Type} (f : A -> list B) (l : list A) (x : A) :
  In x l -> incl (f x) (flat_map f l).
Proof. intros Hx y Hy. apply in_flat_map. now exists x. Qed.

(** C5.  A record whose quantity does not parse as a float has the
    target 0, at the position of the record; the record is not excluded
    on that account: its feature vector, if its date parses, is among
    the features. *)
Theorem C5_quantity_coercion (host : Host) (data : list SalesRecord)
  (i : nat) (row : SalesRecord) :
  nth_error data i = Some row ->
  parseFloat (quantity_sold row) = NaN ->
  nth_error (outputs (preprocessData host (Some data))) i = Some pos_zero
  /\ incl (feature_of host data row)
          (inputs (preprocessData host (Some data))).
Proof.
  intros Hrow Hnan. rewrite outputs_eq, inputs_eq. split.
  - rewrite nth_error_map, Hrow. cbn [option_map]. unfold quantity_of.
    rewrite Hnan. reflexivity.
  - apply incl_flat_map. eapply nth_error_In; eassumption.
Qed.

(** The record with quantity "not-a-number" has the target 0 and keeps
    its feature vector. *)
Lemma C5_not_a_number :
  parseFloat "not-a-number" = NaN
  /\ nth_error (outputs (preprocessData utc_host (Some unparsed_quantity))) 0
     = Some pos_zero
  /\ incl [array [number 1; number 0]]
          (inputs (preprocessData utc_host (Some unparsed_quantity))).
Proof.
  split; [reflexivity|].
  apply (C5_quantity_coercion utc_host unparsed_quantity 0
           {| sales_date := "2024-01-15"; product_description := "A";
              quantity_sold := "not-a-number" |});
    reflexivity.
Defined.

(** C6.  The product index numbers the distinct descriptions of the
    batch from zero in the order in which they first appear, one number
    per description and one description per number. *)
Theorem C6_product_index (host : Host) (data : list SalesRecord) :
  let pm := productMapping (preprocessData host (Some data)) in
  let descs := map product_description data in
  NoDup (map fst pm)
  /\ (forall p, In p (map fst pm) <-> In p descs)
  /\ map snd pm
     = map (fun i => number (Z.of_nat i)) (seq 0 (List.length pm))
  /\ (forall p, In p descs ->
        Get pm p = number (Z.of_nat (index_of p (map fst pm)))
        /\ (index_of p (map fst pm) < List.length pm)%nat)
  /\ (forall p q, In p descs -> In q descs ->
        ((index_of p (map fst pm) < index_of q (map fst pm))%nat
         <-> (index_of p descs < index_of q descs)%nat))
  /\ (forall p q, In p descs -> In q descs -> Get pm p = Get pm q -> p = q).
Proof.
  cbv zeta. rewrite productMapping_eq, mapping_of_keys.
  assert (Hlen : List.length (mapping_of data)
                 = List.length (products_of data)).
  { rewrite <- (mapping_of_keys data). now rewrite length_map. }
  split; [apply Set_from_NoDup|].
  split; [intros p; apply Set_from_In|].
  split.
  { rewrite Hlen. unfold mapping_of, mapi.
    generalize (products_of data), 0%nat.
    intros ps. induction ps as [|p ps IH]; intros i0; simpl; [reflexivity|].
    now rewrite IH. }
  split.
  { intros p Hp. split; [now apply Get_mapping_of|].
    rewrite Hlen. apply index_of_lt. now apply Set_from_In. }
  split.
  { intros p q Hp Hq. now apply Set_from_order. }
  intros p q Hp Hq. rewrite !Get_mapping_of by assumption.
  intros [= Heq]. apply Nat2Z.inj in Heq.
  assert (Hp' : In p (products_of data)) by now apply Set_from_In.
  assert (Hq' : In q (products_of data)) by now apply Set_from_In.
  apply nth_error_index_of in Hp', Hq'. rewrite Heq in Hp'. congruence.
Qed.

(** C10.  The lookup of the description of a record of the batch is
    always a number, never undefined, so that the features are the
    records whose date parses, in order: a record is left out of the
    features exactly when its date fails to parse. *)
Theorem C10_lookup_defined (host : Host) (data : list SalesRecord) :
  let e := preprocessData host (Some data) in
  Forall (fun row =>
            exists i : nat,
              Get (productMapping e) (product_description row)
              = number (Z.of_nat i)) data
  /\ inputs e
     = flat_map
         (fun row =>
            match month_of host row with
            | Some m =>
                [array [number m;
                        Get (productMapping e) (product_description row)]]
            | None => []
            end) data
  /\ Forall (fun row =>
               encode_row host (productMapping e) row = []
               <-> Date_parse host (sales_date row) = None) data.
Proof.
  cbv zeta. rewrite productMapping_eq. split; [|split].
  - apply Forall_forall. intros row Hrow.
    eexists. apply Get_mapping_of. now apply in_map.
  - rewrite inputs_eq. apply flat_map_ext_in. intros row Hrow.
    unfold feature_of. rewrite Get_mapping_of by now apply in_map.
    reflexivity.
  - apply Forall_forall. intros row Hrow.
    rewrite encode_row_feature_of by assumption.
    unfold feature_of, month_of, new_Date.
    destruct (Date_parse host (sales_date row)); split; congruence.
Qed.

(* ===================================================================== *)
(** * Properties of the pipeline *)
(* ===================================================================== *)

(** C7.  On an empty or absent batch the encoder returns empty features,
    empty targets and an empty product index, and the pipeline completes
    normally leaving the world as it found it: no call to training or
    inference is made, no tensor allocated, no chart set. *)
Theorem C7_empty_input (host : Host) (backend : Backend) (w : World) :
  preprocessData host None = empty_encoding
  /\ preprocessData host (Some []) = empty_encoding
  /\ trainAndPredict host backend None w = (normal tt, w)
  /\ trainAndPredict host backend (Some []) w = (normal tt, w).
Proof. repeat split. Qed.

(** C8.  When the encoding has no features or no targets, the pipeline
    returns before training, leaving the world as it found it: no call
    to training or inference, no chart. *)
Theorem C8_no_training_data (host : Host) (backend : Backend)
  (data : option (list SalesRecord)) (w : World) :
  inputs (preprocessData host data) = []
  \/ outputs (preprocessData host data) = [] ->
  trainAndPredict host backend data w = (normal tt, w).
Proof.
  intros H. unfold trainAndPredict.
  destruct H as [-> | ->]; cbn [List.length Nat.eqb orb];
    rewrite ?orb_true_r; reflexivity.
Qed.

(** A batch in which no date parses trains nothing. *)
Lemma C8_undated_batch :
  inputs (preprocessData utc_host (Some undated_records)) = []
  /\ trainAndPredict utc_host zero_backend (Some undated_records) initial
     = (normal tt, initial).
Proof.
  split; [reflexivity|].
  apply (C8_no_training_data utc_host zero_backend (Some undated_records)
           initial).
  left. reflexivity.
Defined.

(** The months of the loop. *)
Lemma forecast_months_eq : forecast_months = [1; 2; 3; 4; 5; 6]%Z.
Proof. reflexivity. Qed.

Lemma flat_map_const_length {A B : Type} (f : A -> list B) (n : nat)
  (l : list A) :
  (forall x, List.length (f x) = n) ->
  List.length (flat_map f l) = (List.length l * n)%nat.
Proof.
  intros Hf. induction l as [|x l IH]; simpl; [reflexivity|].
  now rewrite length_app, Hf, IH.
Qed.

(** The mapping of [sku_records] lists its keys in another order than
    that of their creation. *)
Lemma sku_records_keys :
  map fst (productMapping (preprocessData utc_host (Some sku_records)))
  = ["10"; "2"]
  /\ Object_keys (productMapping (preprocessData utc_host (Some sku_records)))
     = ["2"; "10"].
Proof. split; reflexivity. Qed.

(** C3, as stated, fails: for the product index of [sku_records], whose
    descriptions "10" and "2" are array indices, the forecast is not the
    sequence that takes the products of each month in insertion
    order. *)
Lemma C3_insertion_order_refuted :
  fst (forecast zero_model
         (productMapping (preprocessData utc_host (Some sku_records)))
         initial)
  <> normal
       (insertion_order_forecast zero_model
          (productMapping (preprocessData utc_host (Some sku_records)))).
Proof. vm_compute. discriminate. Qed.

(** C3, amended.  The forecast completes normally with six times as many
    points as the product index has products: for the months 1 to 6 in
    ascending order, one point per product in the order in which
    [Object.keys] lists the product index.  That order holds every
    product once, the array indices first in ascending numeric order and
    then the other descriptions in insertion order; it is the insertion
    order when no description is an array index. *)
Theorem C3_forecast_shape (model : Trained) (pm : Object) (w : World) :
  fst (forecast model pm w) = normal (keys_order_forecast model pm)
  /\ List.length (keys_order_forecast model pm) = (6 * List.length pm)%nat
  /\ forecast_months = [1; 2; 3; 4; 5; 6]%Z
  /\ Permutation (Object_keys pm) (map fst pm)
  /\ Object_keys pm
     = map snd (index_keys (map fst pm))
       ++ filter (fun k => negb (is_array_index k)) (map fst pm)
  /\ StronglySorted (fun a b => (fst a <= fst b)%N) (index_keys (map fst pm))
  /\ Forall (fun e => array_index (snd e) = Some (fst e))
            (index_keys (map fst pm))
  /\ (forallb (fun k => negb (is_array_index k)) (map fst pm) = true ->
      keys_order_forecast model pm = insertion_order_forecast model pm).
Proof.
  split; [now rewrite forecast_run|].
  split.
  { unfold keys_order_forecast.
    rewrite (flat_map_const_length _ (List.length pm)); [reflexivity|].
    intros i. now rewrite length_map, Object_keys_length. }
  split; [reflexivity|].
  split; [apply Object_keys_perm|].
  split; [reflexivity|].
  split; [apply index_keys_sorted|].
  split; [apply index_keys_sound|].
  intros H. unfold keys_order_forecast, insertion_order_forecast.
  now rewrite Object_keys_creation_order.
Qed.

(** For the product index of [dated_records], whose descriptions are no
    array indices, the forecast follows the insertion order. *)
Lemma C3_dated_records_forecast :
  keys_order_forecast zero_model
    (productMapping (preprocessData utc_host (Some dated_records)))
  = insertion_order_forecast zero_model
      (productMapping (preprocessData utc_host (Some dated_records))).
Proof.
  apply (C3_forecast_shape zero_model
           (productMapping (preprocessData utc_host (Some dated_records)))
           initial).
  reflexivity.
Defined.

(** C9 (the code departs from the claim).  The claim: every buffer of an
    inference call, the 1x2 input and the prediction, is released before
    the next iteration.  The loop disposes of the prediction tensor only:
    the input tensor of every iteration stays live, so that the forecast
    leaves six live tensors more per product than it found. *)
Theorem C9_input_tensors_leak (model : Trained) (pm : Object) (w : World) :
  handles_ok w ->
  List.length (live (snd (forecast model pm w)))
  = (List.length (live w) + 6 * List.length pm)%nat.
Proof.
  intros Hok. rewrite forecast_run. cbn [snd]. unfold after_forecast.
  destruct (after_months_live pm forecast_months w Hok) as [Hlen _].
  exact Hlen.
Qed.

(** From the initial world, the forecast over the two products of
    [dated_records] leaves twelve tensors live. *)
Lemma C9_twelve_live_tensors :
  handles_ok initial
  /\ List.length
       (live (snd (forecast zero_model
                     (productMapping
                        (preprocessData utc_host (Some dated_records)))
                     initial)))
     = 12%nat.
Proof.
  split; [constructor|].
  apply (C9_input_tensors_leak zero_model
           (productMapping (preprocessData utc_host (Some dated_records)))
           initial).
  constructor.
Defined.

(* ===================================================================== *)
(** * A whole run *)
(* ===================================================================== *)

Section Run.

Variable pm : Object.

Lemma after_forecast_calls (w : World) :
  calls (after_forecast pm w) = calls w ++ predict_calls pm.
Proof.
  unfold after_forecast, predict_calls.
  generalize forecast_months. intros ms. revert w.
  induction ms as [|i ms IH]; intros w; simpl.
  - now rewrite app_nil_r.
  - rewrite IH, app_assoc. f_equal. clear IH.
    generalize (Object_keys pm). intros ks. revert w.
    induction ks as [|k ks IH]; intros w; simpl.
    + now rewrite app_nil_r.
    + rewrite IH. simpl. now rewrite <- app_assoc.
Qed.

Lemma after_forecast_chartData (w : World) :
  chartData (after_forecast pm w) = chartData w.
Proof.
  unfold after_forecast. generalize forecast_months. intros ms. revert w.
  induction ms as [|i ms IH]; intros w; simpl; [reflexivity|].
  rewrite IH. clear IH. generalize (Object_keys pm). intros ks. revert w.
  induction ks as [|k ks IH]; intros w; simpl; [reflexivity|].
  now rewrite IH.
Qed.


Lemma predict_calls_kind :
  Forall (fun c => is_predict c = true) (predict_calls pm).
Proof.
  apply Forall_forall. intros c Hc. unfold predict_calls in Hc.
  apply in_flat_map in Hc. destruct Hc as [i [_ Hc]].
  apply in_map_iff in Hc. destruct Hc as [p [<- _]]. reflexivity.
Qed.

End Run.

Lemma bind_normal {A B : Type} (c : M A) (k : A -> M B) (w w' : World)
  (a : A) :
  c w = (normal a, w') -> bind c k w = k a w'.
Proof. intros H. unfold bind. now rewrite H. Qed.

Lemma bind_throw {A B : Type} (c : M A) (k : A -> M B) (w w' : World) :
  c w = (throw, w') -> bind c k w = (throw, w').
Proof. intros H. unfold bind. now rewrite H. Qed.

Lemma fit_run (backend : Backend) (model : Sequential)
  (xs : Tensor (list Value)) (ys : Tensor (list Number)) (epochs : nat)
  (w : World) :
  fit backend model xs ys epochs w
  = (match train backend model (values xs) (values ys) epochs with
     | Some t => normal t
     | None => throw
     end,
     {| next_handle := next_handle w; live := live w;
        calls := calls w ++ [call_fit (values xs) (values ys) epochs];
        chartData := chartData w |}).
Proof.
  unfold fit, bind, record_call.
  destruct (train backend model (values xs) (values ys) epochs); reflexivity.
Qed.

(** When training succeeds the pipeline completes normally: one call to
    [fit] with all features and all targets for 50 epochs, one call to
    [predict] per month and product, the chart set from the forecast; the
    two training tensors and the input tensor of every prediction are
    still live at the end. *)
Lemma trainAndPredict_trained (host : Host) (backend : Backend)
  (data : option (list SalesRecord)) (w : World) (trained : Trained) :
  let e := preprocessData host data in
  inputs e <> [] -> outputs e <> [] ->
  handles_ok w ->
  train backend buildModel (inputs e) (outputs e) 50 = Some trained ->
  let r := trainAndPredict host backend data w in
  fst r = normal tt
  /\ calls (snd r)
     = calls w ++ call_fit (inputs e) (outputs e) 50
                  :: predict_calls (productMapping e)
  /\ chartData (snd r)
     = Some (chart_of (keys_order_forecast trained (productMapping e)))
  /\ List.length (live (snd r))
     = (List.length (live w) + 2 + 6 * List.length (productMapping e))%nat.
Proof.
  intros e Hin Hout Hok Htrain. unfold trainAndPredict. fold e.
  destruct (inputs e) as [|x xs] eqn:Hi; [congruence|].
  destruct (outputs e) as [|y ys] eqn:Ho; [congruence|].
  cbn [List.length Nat.eqb orb].
  erewrite bind_normal by reflexivity.
  erewrite bind_normal by reflexivity.
  erewrite bind_normal
    by (rewrite fit_run; cbn [values]; rewrite Htrain; reflexivity).
  erewrite bind_normal by apply forecast_run.
  unfold visualizeResults, setChartData. cbn [fst snd calls chartData live].
  rewrite after_forecast_calls.
  cbn [calls chartData live next_handle].
  split; [reflexivity|]. split; [now rewrite <- app_assoc|].
  split; [reflexivity|].
  match goal with
  | |- context [after_forecast _ ?w0] =>
      destruct (after_months_live (productMapping e) forecast_months w0)
        as [Hlen _]
  end.
  - unfold handles_ok in *. cbn [live next_handle].
    rewrite <- app_assoc. apply Forall_app. split.
    + eapply Forall_impl; [|exact Hok]. simpl. intros; lia.
    + repeat constructor; lia.
  - unfold after_forecast. rewrite Hlen. cbn [live].
    rewrite !length_app. simpl. lia.
Qed.

(** When training fails the pipeline throws after the call to [fit]:
    nothing is predicted and the chart is left as it was. *)
Lemma trainAndPredict_untrained (host : Host) (backend : Backend)
  (data : option (list SalesRecord)) (w : World) :
  let e := preprocessData host data in
  inputs e <> [] -> outputs e <> [] ->
  train backend buildModel (inputs e) (outputs e) 50 = None ->
  let r := trainAndPredict host backend data w in
  fst r = throw
  /\ calls (snd r) = calls w ++ [call_fit (inputs e) (outputs e) 50]
  /\ chartData (snd r) = chartData w.
Proof.
  intros e Hin Hout Htrain. unfold trainAndPredict. fold e.
  destruct (inputs e) as [|x xs] eqn:Hi; [congruence|].
  destruct (outputs e) as [|y ys] eqn:Ho; [congruence|].
  cbn [List.length Nat.eqb orb].
  erewrite bind_normal by reflexivity.
  erewrite bind_normal by reflexivity.
  erewrite bind_throw
    by (rewrite fit_run; cbn [values]; rewrite Htrain; reflexivity).
  repeat split.
Qed.

(** With the backend that checks the sample counts, [two_records] does
    not get past training, its one feature vector facing two targets. *)
Example two_records_run :
  let r := trainAndPredict utc_host zero_backend (Some two_records) initial in
  fst r = throw /\ chartData (snd r) = None /\ live (snd r) = [0; 1]%nat.
Proof. repeat split. Qed.

Example dated_records_run :
  let r :=
    trainAndPredict utc_host zero_backend (Some dated_records) initial in
  fst r = normal tt
  /\ List.length (filter is_fit (calls (snd r))) = 1%nat
  /\ List.length (filter is_predict (calls (snd r))) = 12%nat
  /\ List.length (live (snd r)) = 14%nat
  /\ option_map datasets (chartData (snd r))
     = Some [ Build_Dataset "A" (repeat pos_zero 6);
              Build_Dataset "B" (repeat pos_zero 6) ].
Proof. vm_compute. repeat split. Qed.

(* ===================================================================== *)
(** * The built-ins on examples *)
(* ===================================================================== *)

Example parseFloat_integers :
  map parseFloat ["5"; "3"; "  42xyz"; "-0"; "+7."]
  = [of_N 5; of_N 3; of_N 42; S754_zero true; of_N 7].
Proof. vm_compute. reflexivity. Qed.

Example parseFloat_fractions :
  map parseFloat ["0.1"; ".5"; "7.5"; "12.5e3"; "1e-2x"; "1e"]
  = [S754_finite false 7205759403792794 (-56);
     S754_finite false 4503599627370496 (-53);
     S754_finite false 8444249301319680 (-50);
     of_N 12500;
     S754_finite false 5764607523034235 (-59);
     of_N 1].
Proof. vm_compute. reflexivity. Qed.

Example parseFloat_limits :
  map parseFloat ["1e309"; "-Infinity"; "1e-330"; "4.9e-324"]
  = [S754_infinity false; S754_infinity true; S754_zero false;
     S754_finite false 1 (-1074)].
Proof. vm_compute. reflexivity. Qed.

Example parseFloat_failures :
  map parseFloat ["not-a-number"; ""; "."; "-"; "e5"; "abc1"; "infinity"]
  = repeat NaN 7.
Proof. vm_compute. reflexivity. Qed.

Example coercion_examples :
  map (fun q => or_else (parseFloat q) pos_zero) ["x"; "0"; "-0"; "5"]
  = [pos_zero; pos_zero; pos_zero; of_N 5].
Proof. vm_compute. reflexivity. Qed.

Example Date_examples :
  map (fun s => match new_Date utc_host s with
                | Some t => Some (getMonth utc_host t + 1)%Z
                | None => None
                end)
      ["2024-01-15"; "bad-date"; "2024-02-29"; "2023-02-29"; "1999-12-31";
       "2024-13-01"]
  = [Some 1; None; Some 2; None; Some 12; None]%Z.
Proof. vm_compute. reflexivity. Qed.

Example time_value_examples :
  new_Date utc_host "2024-01-15" = Some 1705276800000%Z
  /\ new_Date utc_host "1970-01-01" = Some 0%Z
  /\ YearFromTime 1705276800000 = 2024%Z
  /\ YearFromTime (-1) = 1969%Z
  /\ MonthFromTime (-1) = 11%Z.
Proof. vm_compute. repeat split. Qed.

Example Object_keys_example :
  Object_keys
    (Object_fromEntries
       [("b", number 0); ("10", number 1); ("a", number 2); ("2", number 3);
        ("01", number 4); ("b", number 5)])
  = ["2"; "10"; "b"; "a"; "01"].
Proof. reflexivity. Qed.

Example Set_from_example :
  Set_from ["B"; "A"; "B"; "C"; "A"] = ["B"; "A"; "C"].
Proof. reflexivity. Qed.

(* ===================================================================== *)
(** * The two records on any host *)
(* ===================================================================== *)

(** Midnight UTC of 15 January 2024 falls in January in every zone whose
    offset is less than a day. *)
Lemma january_15_any_zone (off : Z) :
  (- msPerDay < off < msPerDay)%Z ->
  MonthFromTime (1705276800000 + off) = 0%Z.
Proof.
  intros Hoff.
  assert (Hday : Day (1705276800000 + off) = 19736%Z
                 \/ Day (1705276800000 + off) = 19737%Z).
  { unfold Day, msPerDay in *. Z.to_euclidean_division_equations. lia. }
  unfold MonthFromTime, DayWithinYear, InLeapYear, YearFromTime.
  destruct Hday as [-> | ->]; reflexivity.
Qed.

Lemma Encoded_eta (e : Encoded) :
  e = {| inputs := inputs e; outputs := outputs e;
         productMapping := productMapping e |}.
Proof. now destruct e. Qed.

(** On a host that reads "2024-01-15" as midnight UTC of that day, keeps
    local time within a day of UTC and rejects "bad-date", the encoding
    of [two_records] is that of [utc_host]. *)
Lemma two_records_any_host (host : Host) :
  Date_parse host "2024-01-15" = Some 1705276800000%Z ->
  (- msPerDay < LocalTZA host 1705276800000 < msPerDay)%Z ->
  Date_parse host "bad-date" = None ->
  preprocessData host (Some two_records)
  = {| inputs := [array [number 1; number 0]];
       outputs := [of_N 5; of_N 3];
       productMapping := [("A", number 0); ("B", number 1)] |}.
Proof.
  intros Hjan Hoff Hbad.
  rewrite (Encoded_eta (preprocessData host (Some two_records))).
  rewrite inputs_eq, outputs_eq, productMapping_eq. f_equal.
  unfold two_records, feature_of, month_of, new_Date.
  cbn [flat_map sales_date]. rewrite Hjan, Hbad. unfold getMonth, LocalTime.
  rewrite january_15_any_zone by assumption. reflexivity.
Qed.

(** Features and targets have the same length exactly when every date of
    the batch parses. *)
Lemma lengths_agree_iff (host : Host) (data : list SalesRecord) :
  List.length (inputs (preprocessData host (Some data)))
  = List.length (outputs (preprocessData host (Some data)))
  <-> Forall (fun row => month_of host row <> None) data.
Proof.
  destruct (encoder_counts host data) as [-> ->].
  induction data as [|row data IH]; simpl.
  - split; [constructor | reflexivity].
  - pose proof (filter_length_le
                  (fun row => match month_of host row with
                              | Some _ => true
                              | None => false
                              end) data) as Hle.
    destruct (month_of host row) as [m|] eqn:Hm; simpl.
    + split.
      * intros [= H]. constructor; [congruence | now apply IH].
      * intros H. inversion H; subst. f_equal. now apply IH.
    + split; [lia|]. intros H. inversion H; subst. congruence.
Qed.

(* ===================================================================== *)
(** * Further properties of the encoder *)
(* ===================================================================== *)

Lemma mapping_of_length (data : list SalesRecord) :
  List.length (mapping_of data) = List.length (products_of data).
Proof. apply mapi_from_length. Qed.

(** X1.  Every feature vector is a pair of numbers: the month of a
    record of the batch, between 1 and 12, and the number of the
    description of that record in the product index, below the number of
    products. *)
Theorem X1_feature_vectors (host : Host) (data : list SalesRecord) :
  let e := preprocessData host (Some data) in
  Forall
    (fun v =>
       exists (row : SalesRecord) (m : Z) (i : nat),
         In row data
         /\ v = array [number m; number (Z.of_nat i)]
         /\ month_of host row = Some m
         /\ (1 <= m <= 12)%Z
         /\ Get (productMapping e) (product_description row)
            = number (Z.of_nat i)
         /\ (i < List.length (productMapping e))%nat)
    (inputs e).
Proof.
  cbv zeta. rewrite inputs_eq, productMapping_eq.
  apply Forall_forall. intros v Hv.
  apply in_flat_map in Hv. destruct Hv as [row [Hrow Hv]].
  unfold feature_of in Hv.
  destruct (month_of host row) as [m|] eqn:Hm; [|destruct Hv].
  destruct Hv as [<-|[]].
  assert (Hd : In (product_description row) (map product_description data))
    by now apply in_map.
  exists row, m, (index_of (product_description row) (products_of data)).
  repeat split; try assumption; try reflexivity.
  - apply (month_of_range host row m Hm).
  - apply (month_of_range host row m Hm).
  - now apply Get_mapping_of.
  - rewrite mapping_of_length. apply index_of_lt. now apply Set_from_In.
Qed.

(** X2.  The targets are the coerced quantities of all the records of
    the batch, in order, whatever their dates; features and targets have
    the same length exactly when every date of the batch parses. *)
Theorem X2_targets_of_all_records (host : Host) (data : list SalesRecord) :
  let e := preprocessData host (Some data) in
  outputs e
  = map (fun row => or_else (parseFloat (quantity_sold row)) pos_zero) data
  /\ (List.length (inputs e) = List.length (outputs e)
      <-> forallb (parses host) data = true).
Proof.
  cbv zeta. split; [apply outputs_eq|].
  rewrite lengths_agree_iff, forallb_forall, Forall_forall.
  split; intros H row Hrow; specialize (H row Hrow); unfold parses in *;
    destruct (month_of host row); congruence.
Qed.

Lemma quantity_of_number (row : SalesRecord) :
  quantity_of row <> NaN /\ quantity_of row <> S754_zero true.
Proof.
  unfold quantity_of, or_else, pos_zero, NaN.
  destruct (parseFloat (quantity_sold row)) as [[|]| | |]; simpl;
    split; discriminate.
Qed.

(** X3.  No target is NaN and none is the negative zero: whatever the
    quantity strings, the trainer is handed numbers. *)
Theorem X3_targets_are_numbers (host : Host)
  (data : option (list SalesRecord)) :
  Forall (fun q => q <> NaN /\ q <> S754_zero true)
         (outputs (preprocessData host data)).
Proof.
  destruct data as [data|]; [|constructor].
  rewrite outputs_eq. apply Forall_forall. intros q Hq.
  apply in_map_iff in Hq. destruct Hq as [row [<- _]].
  apply quantity_of_number.
Qed.

Lemma inputs_le_outputs (host : Host) (data : option (list SalesRecord)) :
  (List.length (inputs (preprocessData host data))
   <= List.length (outputs (preprocessData host data)))%nat.
Proof.
  destruct data as [data|]; [|apply Nat.le_refl].
  destruct (encoder_counts host data) as [-> ->]. apply filter_length_le.
Qed.

(** X4.  The features never outnumber the targets, so the test of the
    targets in the guard of the pipeline never decides: when there is a
    feature there is a target. *)
Theorem X4_features_at_most_targets (host : Host)
  (data : option (list SalesRecord)) :
  (List.length (inputs (preprocessData host data))
   <= List.length (outputs (preprocessData host data)))%nat
  /\ (Nat.eqb (List.length (inputs (preprocessData host data))) 0
      || Nat.eqb (List.length (outputs (preprocessData host data))) 0
      = Nat.eqb (List.length (inputs (preprocessData host data))) 0).
Proof.
  pose proof (inputs_le_outputs host data) as Hle. split; [exact Hle|].
  destruct (inputs (preprocessData host data)); [reflexivity|].
  destruct (outputs (preprocessData host data)); [simpl in Hle; lia|].
  reflexivity.
Qed.

(** X5.  The features and the product index do not depend on the
    quantities, and the targets depend on nothing else. *)
Theorem X5_independence (host : Host) (data : list SalesRecord)
  (f g h : SalesRecord -> string) :
  inputs (preprocessData host (Some (with_quantities f data)))
  = inputs (preprocessData host (Some data))
  /\ productMapping (preprocessData host (Some (with_quantities f data)))
     = productMapping (preprocessData host (Some data))
  /\ outputs (preprocessData host (Some (with_dates_and_products g h data)))
     = outputs (preprocessData host (Some data)).
Proof.
  assert (Hp : products_of (with_quantities f data) = products_of data).
  { unfold products_of, with_quantities. now rewrite map_map. }
  split; [|split].
  - rewrite !inputs_eq. unfold with_quantities at 2.
    rewrite flat_map_concat_map, map_map, <- flat_map_concat_map.
    apply flat_map_ext. intros row. unfold feature_of, month_of.
    now rewrite Hp.
  - rewrite !productMapping_eq. unfold mapping_of. now rewrite Hp.
  - rewrite !outputs_eq. unfold with_dates_and_products.
    now rewrite map_map.
Qed.

(* ===================================================================== *)
(** * Further properties of the forecast and of the chart *)
(* ===================================================================== *)

Lemma Object_keys_NoDup (o : Object) :
  NoDup (map fst o) -> NoDup (Object_keys o).
Proof.
  intros H. eapply Permutation_NoDup; [|exact H].
  symmetry. apply Object_keys_perm.
Qed.

Lemma mapping_of_NoDup (data : list SalesRecord) :
  NoDup (map fst (mapping_of data)).
Proof. rewrite mapping_of_keys. apply Set_from_NoDup. Qed.

Lemma Object_keys_mapping_of (data : list SalesRecord) (p : string) :
  In p (Object_keys (mapping_of data))
  <-> In p (map product_description data).
Proof.
  rewrite <- (Set_from_In (map product_description data) p).
  change (Set_from (map product_description data)) with (products_of data).
  rewrite <- (mapping_of_keys data).
  split; apply Permutation_in;
    [apply Object_keys_perm | symmetry; apply Object_keys_perm].
Qed.

(** The points of one product among those of one month. *)
Lemma filter_points_of_month (model : Trained) (pm : Object) (i : Z)
  (p : string) (ks : list string) :
  NoDup ks -> In p ks ->
  filter (fun q => String.eqb (product q) p) (map (point model pm i) ks)
  = [point model pm i p].
Proof.
  induction 1 as [|k ks Hk Hnd IH]; intros Hin; [destruct Hin|].
  cbn [map filter product point].
  destruct (String.eqb_spec k p) as [->|Hkp].
  - f_equal.
    clear IH Hin. induction ks as [|k ks IH]; [reflexivity|].
    cbn [map filter product point].
    destruct (String.eqb_spec k p) as [->|_].
    + exfalso. apply Hk. now left.
    + apply IH.
      * intros H. apply Hk. now right.
      * now inversion Hnd.
  - apply IH. destruct Hin; [congruence | assumption].
Qed.

Lemma filter_points (model : Trained) (pm : Object) (p : string)
  (ks : list string) (ms : list Z) :
  NoDup ks -> In p ks ->
  filter (fun q => String.eqb (product q) p)
         (flat_map (fun i => map (point model pm i) ks) ms)
  = map (fun i => point model pm i p) ms.
Proof.
  intros Hnd Hin. induction ms as [|i ms IH]; [reflexivity|].
  cbn [flat_map map]. rewrite filter_app, IH.
  now rewrite filter_points_of_month.
Qed.


(** X7.  Every call to [predict] is made on a pair of numbers: a month
    from 1 to 6 and the number of a product, below the number of
    products; the lookup in the loop is never undefined. *)
Theorem X7_predictions_on_numbers (host : Host) (data : list SalesRecord) :
  let pm := productMapping (preprocessData host (Some data)) in
  Forall
    (fun c =>
       exists (m : Z) (i : nat),
         c = call_predict [array [number m; number (Z.of_nat i)]]
         /\ (1 <= m <= 6)%Z
         /\ (i < List.length pm)%nat)
    (predict_calls pm).
Proof.
  cbv zeta. rewrite productMapping_eq. apply Forall_forall. intros c Hc.
  unfold predict_calls in Hc. apply in_flat_map in Hc.
  destruct Hc as [m [Hm Hc]]. apply in_map_iff in Hc.
  destruct Hc as [p [<- Hp]]. apply Object_keys_mapping_of in Hp.
  exists m, (index_of p (products_of data)).
  rewrite Get_mapping_of by assumption. split; [reflexivity|]. split.
  - rewrite forecast_months_eq in Hm. simpl in Hm.
    repeat (destruct Hm as [<-|Hm]; [lia|]). destruct Hm.
  - rewrite mapping_of_length. apply index_of_lt. now apply Set_from_In.
Qed.

(** ** The chart *)

Lemma Set_from_app (a b : list string) :
  Set_from (a ++ b) = fold_left Set_add b (Set_from a).
Proof. unfold Set_from. apply fold_left_app. Qed.

Lemma Set_add_known (b s : list string) :
  incl b s -> fold_left Set_add b s = s.
Proof.
  induction b as [|x b IH]; intros Hb; [reflexivity|].
  cbn [fold_left]. unfold Set_add at 2.
  assert (Hx : Set_has s x = true) by (apply Set_has_In, Hb; now left).
  rewrite Hx. apply IH. intros y Hy. apply Hb. now right.
Qed.

Lemma Set_from_distinct (a : list string) : NoDup a -> Set_from a = a.
Proof.
  induction a as [|x a IH] using rev_ind; intros Hnd; [reflexivity|].
  rewrite Set_from_snoc.
  apply NoDup_remove in Hnd. rewrite app_nil_r in Hnd.
  destruct Hnd as [Hnd Hx]. rewrite IH by assumption.
  unfold Set_add. destruct (Set_has a x) eqn:Hh; [|reflexivity].
  apply Set_has_In in Hh. contradiction.
Qed.

Lemma Set_from_repeated (ks : list string) (n : nat) :
  NoDup ks ->
  Set_from (flat_map (fun _ : Z => ks) (map Z.of_nat (seq 1 (S n)))) = ks.
Proof.
  intros Hnd. cbn [seq map flat_map].
  rewrite Set_from_app, Set_from_distinct by assumption.
  apply Set_add_known. intros p Hp. apply in_flat_map in Hp.
  now destruct Hp as [_ [_ Hp]].
Qed.

Lemma products_of_forecast (model : Trained) (pm : Object) :
  map product (keys_order_forecast model pm)
  = flat_map (fun _ : Z => Object_keys pm) forecast_months.
Proof.
  unfold keys_order_forecast. generalize forecast_months. intros ms.
  induction ms as [|i ms IH]; [reflexivity|].
  cbn [flat_map]. rewrite map_app, IH, map_map. f_equal.
  apply map_id.
Qed.

(** The chart of a forecast over distinct products. *)
Lemma chart_of_forecast (model : Trained) (pm : Object) :
  NoDup (map fst pm) ->
  chart_of (keys_order_forecast model pm)
  = {| labels :=
         ["Month 1"; "Month 2"; "Month 3"; "Month 4"; "Month 5"; "Month 6"];
       datasets := forecast_datasets model pm |}.
Proof.
  intros Hnd. apply Object_keys_NoDup in Hnd.
  unfold chart_of, forecast_datasets. f_equal.
  rewrite products_of_forecast.
  unfold forecast_months at 1. rewrite Set_from_repeated by assumption.
  apply map_ext_in. intros p Hp. f_equal.
  unfold keys_order_forecast. rewrite filter_points by assumption.
  now rewrite map_map.
Qed.

(** X8.  The chart of the forecast of a batch has the six month labels
    and one dataset per description of the batch, in the order in which
    [Object.keys] lists the product index, each with the six predictions
    of its product in the order of the months. *)
Theorem X8_chart_of_forecast (host : Host) (data : list SalesRecord)
  (model : Trained) (w : World) :
  let pm := productMapping (preprocessData host (Some data)) in
  visualizeResults (keys_order_forecast model pm) w
  = (normal tt,
     {| next_handle := next_handle w; live := live w; calls := calls w;
        chartData :=
          Some {| labels :=
                    ["Month 1"; "Month 2"; "Month 3"; "Month 4"; "Month 5";
                     "Month 6"];
                  datasets := forecast_datasets model pm |} |}).
Proof.
  cbv zeta. rewrite productMapping_eq.
  rewrite <- (chart_of_forecast model (mapping_of data))
    by apply mapping_of_NoDup.
  reflexivity.
Qed.

Lemma list_sum_cons (a : nat) (l : list nat) :
  list_sum (a :: l) = a + list_sum l.
Proof. reflexivity. Qed.

Lemma indicator_sum_absent (x : string) (ks : list string) :
  ~ In x ks ->
  list_sum (map (fun p => if String.eqb x p then 1 else 0) ks) = 0.
Proof.
  induction ks as [|k ks IH]; intros Hx; [reflexivity|].
  cbn [map]. rewrite list_sum_cons. destruct (String.eqb_spec x k) as [Heq|_].
  - exfalso. apply Hx. now left.
  - apply IH. intros H. apply Hx. now right.
Qed.

Lemma indicator_sum (x : string) (ks : list string) :
  NoDup ks -> In x ks ->
  list_sum (map (fun p => if String.eqb x p then 1 else 0) ks) = 1.
Proof.
  induction 1 as [|k ks Hk Hnd IH]; intros Hin; [destruct Hin|].
  cbn [map]. rewrite list_sum_cons. destruct (String.eqb_spec x k) as [Heq|Hxk].
  - rewrite indicator_sum_absent; [reflexivity | congruence].
  - apply IH. destruct Hin; [congruence | assumption].
Qed.

Lemma list_sum_map_add {A : Type} (f g : A -> nat) (l : list A) :
  list_sum (map (fun x => f x + g x) l)
  = list_sum (map f l) + list_sum (map g l).
Proof.
  induction l as [|x l IH]; [reflexivity|].
  cbn [map]. rewrite !list_sum_cons, IH. lia.
Qed.

(** Grouping by product loses nothing and doubles nothing. *)
Lemma group_sizes (predictions : list Prediction) (ks : list string) :
  NoDup ks ->
  (forall q, In q predictions -> In (product q) ks) ->
  list_sum
    (map (fun p =>
            List.length
              (filter (fun q => String.eqb (product q) p) predictions)) ks)
  = List.length predictions.
Proof.
  intros Hnd. induction predictions as [|q qs IH]; intros Hin.
  - cbn [filter List.length]. clear Hnd Hin.
    induction ks as [|k ks IHks]; [reflexivity|].
    cbn [map]. rewrite list_sum_cons. exact IHks.
  - rewrite (map_ext _
               (fun p => (if String.eqb (product q) p then 1 else 0)
                         + List.length
                             (filter (fun q => String.eqb (product q) p) qs))).
    + rewrite list_sum_map_add, IH by (intros; apply Hin; now right).
      rewrite indicator_sum; [reflexivity | assumption |].
      apply Hin. now left.
    + intros p. cbn [filter]. destruct (String.eqb (product q) p); reflexivity.
Qed.

(** X9.  [visualizeResults] completes normally on any predictions and
    sets a chart with six labels and one dataset per distinct product of
    the predictions; every prediction is in exactly one dataset, so the
    datasets hold as many values as there are predictions. *)
Theorem X9_chart_groups_predictions (predictions : list Prediction)
  (w : World) :
  exists c : ChartData,
    visualizeResults predictions w
    = (normal tt,
       {| next_handle := next_handle w; live := live w; calls := calls w;
          chartData := Some c |})
    /\ List.length (labels c) = 6
    /\ NoDup (map label (datasets c))
    /\ (forall p, In p (map label (datasets c))
                  <-> In p (map product predictions))
    /\ chart_values c = List.length predictions.
Proof.
  exists (chart_of predictions). split; [reflexivity|].
  split; [reflexivity|].
  assert (Hl : map label (datasets (chart_of predictions))
               = Set_from (map product predictions)).
  { unfold chart_of. cbn [datasets]. rewrite map_map. apply map_id. }
  rewrite Hl. split; [apply Set_from_NoDup|].
  split; [intros p; apply Set_from_In|].
  unfold chart_values, chart_of. cbn [datasets]. rewrite map_map.
  cbn [TF.data].
  rewrite (map_ext _
             (fun p => List.length
                         (filter (fun q => String.eqb (product q) p)
                                 predictions)))
    by (intros; apply length_map).
  apply group_sizes; [apply Set_from_NoDup|].
  intros q Hq. apply Set_from_In. now apply in_map.
Qed.

(* ===================================================================== *)
(** * Further properties of the pipeline *)
(* ===================================================================== *)

Lemma filter_nil_iff {A : Type} (f : A -> bool) (l : list A) :
  filter f l = [] <-> existsb f l = false.
Proof.
  induction l as [|x l IH]; simpl; [tauto|].
  destruct (f x); simpl; [split; discriminate | exact IH].
Qed.

(** There is a feature exactly when a date of the batch parses. *)
Lemma inputs_nil_iff (host : Host) (data : list SalesRecord) :
  inputs (preprocessData host (Some data)) = []
  <-> existsb (parses host) data = false.
Proof.
  rewrite <- filter_nil_iff, <- !length_zero_iff_nil.
  destruct (encoder_counts host data) as [_ ->]. reflexivity.
Qed.

(** A run that gets past the guard makes the two training tensors, calls
    [fit], and then forecasts and sets the chart, or throws. *)
Lemma trainAndPredict_started (host : Host) (backend : Backend)
  (data : option (list SalesRecord)) (w : World) :
  let e := preprocessData host data in
  inputs e <> [] ->
  trainAndPredict host backend data w
  = match train backend buildModel (inputs e) (outputs e) 50 with
    | Some trained =>
        let w' := after_forecast (productMapping e) (after_fit e w) in
        (normal tt,
         {| next_handle := next_handle w'; live := live w';
            calls := calls w';
            chartData :=
              Some (chart_of (keys_order_forecast trained
                                (productMapping e))) |})
    | None => (throw, after_fit e w)
    end.
Proof.
  intros e Hin. pose proof (inputs_le_outputs host data) as Hle.
  fold e in Hle. unfold trainAndPredict, after_fit. fold e.
  destruct (inputs e) as [|x xs] eqn:Hi; [congruence|].
  destruct (outputs e) as [|y ys] eqn:Ho; [simpl in Hle; lia|].
  cbn [List.length Nat.eqb orb].
  erewrite bind_normal by reflexivity.
  erewrite bind_normal by reflexivity.
  destruct (train backend buildModel (x :: xs) (y :: ys) 50) as [t|] eqn:Ht.
  - erewrite bind_normal
      by (rewrite fit_run; cbn [values]; rewrite Ht; reflexivity).
    erewrite bind_normal by apply forecast_run.
    reflexivity.
  - erewrite bind_throw
      by (rewrite fit_run; cbn [values]; rewrite Ht; reflexivity).
    reflexivity.
Qed.

Lemma after_fit_handles (e : Encoded) (w : World) :
  handles_ok w -> handles_ok (after_fit e w).
Proof.
  unfold handles_ok, after_fit. cbn [live next_handle]. intros Hok.
  rewrite <- app_assoc. apply Forall_app. split.
  - eapply Forall_impl; [|exact Hok]. simpl. intros; lia.
  - repeat constructor; lia.
Qed.

(** The world a successful run leaves. *)
Lemma trained_run_world (host : Host) (backend : Backend)
  (data : option (list SalesRecord)) (w : World) (trained : Trained) :
  let e := preprocessData host data in
  inputs e <> [] ->
  train backend buildModel (inputs e) (outputs e) 50 = Some trained ->
  handles_ok w ->
  let r := trainAndPredict host backend data w in
  fst r = normal tt
  /\ calls (snd r)
     = calls w ++ call_fit (inputs e) (outputs e) 50
                  :: predict_calls (productMapping e)
  /\ chartData (snd r)
     = Some (chart_of (keys_order_forecast trained (productMapping e)))
  /\ List.length (live (snd r))
     = (List.length (live w) + (2 + 6 * List.length (productMapping e)))%nat
  /\ handles_ok (snd r).
Proof.
  intros e Hin Htrain Hok r. subst r.
  rewrite (trainAndPredict_started host backend data w Hin). fold e.
  rewrite Htrain. cbn [fst snd calls chartData live].
  split; [reflexivity|].
  split; [rewrite after_forecast_calls; cbn [after_fit calls];
          now rewrite <- app_assoc|].
  split; [reflexivity|].
  destruct (after_months_live (productMapping e) forecast_months
              (after_fit e w) (after_fit_handles e w Hok)) as [Hlen Hok'].
  split.
  - unfold after_forecast. rewrite Hlen. cbn [after_fit live].
    rewrite !length_app. simpl. lia.
  - exact Hok'.
Qed.

(** X10.  The pipeline does something exactly when a date of the batch
    parses.  When none does it returns leaving the world as it found it;
    when one does, its first act on the model is one call to [fit], for
    50 epochs, on the feature vectors of the records whose date parses
    and on the targets of all the records, whatever training then
    does. *)
Theorem X10_trains_when_a_date_parses (host : Host) (backend : Backend)
  (data : list SalesRecord) (w : World) :
  let e := preprocessData host (Some data) in
  let r := trainAndPredict host backend (Some data) w in
  if existsb (parses host) data
  then (exists rest,
          calls (snd r)
          = calls w ++ call_fit (inputs e) (outputs e) 50 :: rest)
       /\ List.length (inputs e)
          = List.length (filter (parses host) data)
       /\ List.length (outputs e) = List.length data
  else r = (normal tt, w).
Proof.
  cbv zeta. destruct (existsb (parses host) data) eqn:Hp.
  - assert (Hin : inputs (preprocessData host (Some data)) <> []).
    { intros H. apply inputs_nil_iff in H. congruence. }
    destruct (encoder_counts host data) as [Hout Hlen].
    split; [|split; assumption].
    rewrite (trainAndPredict_started host backend (Some data) w Hin).
    destruct (train backend buildModel _ _ 50) as [t|].
    + exists (predict_calls (productMapping (preprocessData host (Some data)))).
      cbn [snd calls]. rewrite after_forecast_calls. cbn [after_fit calls].
      now rewrite <- app_assoc.
    + exists []. reflexivity.
  - apply inputs_nil_iff in Hp. unfold trainAndPredict. now rewrite Hp.
Qed.

(** X11.  A run in which a date parses and training succeeds completes
    normally: one call to [fit] followed by the 6 x N calls to [predict],
    the chart set to the datasets of the forecast and rendered; the two
    training tensors are never disposed of, so that with the inputs of
    the predictions 2 + 6 x N tensors more are live than before. *)
Theorem X11_successful_run (host : Host) (backend : Backend)
  (data : list SalesRecord) (w : World) (trained : Trained) :
  let e := preprocessData host (Some data) in
  existsb (parses host) data = true ->
  train backend buildModel (inputs e) (outputs e) 50 = Some trained ->
  handles_ok w ->
  let r := trainAndPredict host backend (Some data) w in
  fst r = normal tt
  /\ calls (snd r)
     = calls w ++ call_fit (inputs e) (outputs e) 50
                  :: predict_calls (productMapping e)
  /\ chartData (snd r)
     = Some {| labels :=
                 ["Month 1"; "Month 2"; "Month 3"; "Month 4"; "Month 5";
                  "Month 6"];
               datasets := forecast_datasets trained (productMapping e) |}
  /\ renders_chart (snd r) = true
  /\ List.length (live (snd r))
     = (List.length (live w) + 2 + 6 * List.length (productMapping e))%nat.
Proof.
  intros e Hp Htrain Hok r.
  assert (Hin : inputs e <> []).
  { intros H. apply inputs_nil_iff in H. congruence. }
  destruct (trained_run_world host backend (Some data) w trained
              Hin Htrain Hok) as (H1 & H2 & H3 & H4 & _).
  fold r in H1, H2, H3, H4. fold e in H2, H3, H4.
  assert (Hc : chart_of (keys_order_forecast trained (productMapping e))
               = {| labels :=
                      ["Month 1"; "Month 2"; "Month 3"; "Month 4";
                       "Month 5"; "Month 6"];
                    datasets :=
                      forecast_datasets trained (productMapping e) |}).
  { apply chart_of_forecast. unfold e. rewrite productMapping_eq.
    apply mapping_of_NoDup. }
  rewrite Hc in H3. unfold renders_chart. rewrite H3.
  repeat split; try assumption. rewrite H4. lia.
Qed.

Lemma X11_dated_records_run :
  existsb (parses utc_host) dated_records = true
  /\ handles_ok initial
  /\ fst (trainAndPredict utc_host zero_backend (Some dated_records) initial)
     = normal tt
  /\ List.length
       (live (snd (trainAndPredict utc_host zero_backend
                     (Some dated_records) initial)))
     = 14%nat.
Proof.
  split; [reflexivity|]. split; [constructor|].
  pose proof (X11_successful_run utc_host zero_backend dated_records initial
                zero_model eq_refl eq_refl (Forall_nil _)) as H.
  split; [apply H|]. destruct H as (_ & _ & _ & _ & H). exact H.
Defined.

(** X12.  A run in which a date parses and training fails throws after
    the call to [fit]: nothing is predicted, the chart is left as it
    was, and the two training tensors stay live. *)
Theorem X12_failed_training (host : Host) (backend : Backend)
  (data : list SalesRecord) (w : World) :
  let e := preprocessData host (Some data) in
  existsb (parses host) data = true ->
  train backend buildModel (inputs e) (outputs e) 50 = None ->
  let r := trainAndPredict host backend (Some data) w in
  fst r = throw
  /\ calls (snd r) = calls w ++ [call_fit (inputs e) (outputs e) 50]
  /\ chartData (snd r) = chartData w
  /\ live (snd r) = live w ++ [next_handle w; S (next_handle w)].
Proof.
  intros e Hp Htrain r.
  assert (Hin : inputs e <> []).
  { intros H. apply inputs_nil_iff in H. congruence. }
  subst r. rewrite (trainAndPredict_started host backend (Some data) w Hin).
  fold e. rewrite Htrain. cbn [fst snd after_fit calls chartData live].
  repeat split. now rewrite <- app_assoc.
Qed.

(** The batch of [two_records], with one feature vector and two targets,
    fails in training. *)
Lemma X12_two_records_run :
  existsb (parses utc_host) two_records = true
  /\ fst (trainAndPredict utc_host zero_backend (Some two_records) initial)
     = throw
  /\ chartData
       (snd (trainAndPredict utc_host zero_backend (Some two_records)
               initial))
     = None.
Proof.
  split; [reflexivity|].
  pose proof (X12_failed_training utc_host zero_backend two_records initial
                eq_refl eq_refl) as H.
  split; [apply H|]. destruct H as (_ & _ & H & _). exact H.
Defined.




(* ===================================================================== *)
(** * The styles of the datasets *)
(* ===================================================================== *)

Lemma dataset_styles_by_index (style : nat -> Style)
  (predictions : list Prediction) :
  map snd (dataset_styles style predictions)
  = map style (seq 0 (List.length (datasets (chart_of predictions)))).
Proof.
  unfold dataset_styles, chart_of, mapi. cbn [datasets].
  rewrite length_map. generalize (Set_from (map product predictions)), 0.
  intros ps. induction ps as [|p ps IH]; intros i; [reflexivity|].
  cbn [mapi_from map List.length seq snd]. now rewrite IH.
Qed.

(** X14.  In the component of src/SalesForecasting.js the dataset at
    position [k] of the chart has the style of [k]; border and background
    colour are always defined, and two datasets have the same border
    colour, and the same background colour, exactly when their positions
    agree modulo 3: a chart of more than three products repeats its
    colours. *)
Theorem X14_gradient_colours (predictions : list Prediction) (i j : nat) :
  map snd (dataset_styles GradientStyle.style predictions)
  = map GradientStyle.style
        (seq 0 (List.length (datasets (chart_of predictions))))
  /\ borderColor (GradientStyle.style i) <> None
  /\ backgroundColor (GradientStyle.style i) <> None
  /\ (borderColor (GradientStyle.style i)
      = borderColor (GradientStyle.style j)
      <-> i mod 3 = j mod 3)
  /\ (backgroundColor (GradientStyle.style i)
      = backgroundColor (GradientStyle.style j)
      <-> i mod 3 = j mod 3).
Proof.
  split; [apply dataset_styles_by_index|].
  pose proof (Nat.mod_upper_bound i 3 ltac:(lia)) as Hi.
  pose proof (Nat.mod_upper_bound j 3 ltac:(lia)) as Hj.
  unfold GradientStyle.style. cbn [borderColor backgroundColor List.length
    GradientStyle.borderColors GradientStyle.colors].
  destruct (i mod 3) as [|[|[|a]]]; [| | |lia];
    (destruct (j mod 3) as [|[|[|b]]]; [| | |lia]);
    cbn [nth_error];
    (split; [discriminate|]); (split; [discriminate|]);
    split; split; intros H;
    first [reflexivity | discriminate H].
Qed.

(** X15.  In the second copy of the component the colours come from a
    list of six: border and background colour are always defined, the
    background is the border colour followed by "80", and two datasets
    have the same border colour exactly when their positions agree
    modulo 6. *)
Theorem X15_plain_colours (predictions : list Prediction) (i j : nat) :
  map snd (dataset_styles PlainStyle.style predictions)
  = map PlainStyle.style
        (seq 0 (List.length (datasets (chart_of predictions))))
  /\ (exists c, borderColor (PlainStyle.style i) = Some c
                /\ backgroundColor (PlainStyle.style i)
                   = Some (String.append c "80"))
  /\ (borderColor (PlainStyle.style i) = borderColor (PlainStyle.style j)
      <-> i mod 6 = j mod 6).
Proof.
  split; [apply dataset_styles_by_index|].
  pose proof (Nat.mod_upper_bound i 6 ltac:(lia)) as Hi.
  pose proof (Nat.mod_upper_bound j 6 ltac:(lia)) as Hj.
  unfold PlainStyle.style. cbn [borderColor backgroundColor List.length
    PlainStyle.colors].
  split.
  - destruct (i mod 6) as [|[|[|[|[|[|a]]]]]]; [| | | | | |lia];
      cbn [nth_error]; eexists; split; reflexivity.
  - destruct (i mod 6) as [|[|[|[|[|[|a]]]]]]; [| | | | | |lia];
      (destruct (j mod 6) as [|[|[|[|[|[|b]]]]]]; [| | | | | |lia]);
      cbn [nth_error]; split; intros H;
      first [reflexivity | discriminate H].
Qed.
